(** * BookScraper: a shallow embedding of the crawl pipeline

    Sources: [scraper/collector.py] (WebCollector), [scraper/parser.py]
    (BookParser), [models/data_models.py] (Book, Category) and [main.py]
    (scrape_all_books).

    HTML parsing by BeautifulSoup is not re-implemented: a parsed page is
    the record [Document] of the results of the CSS queries the parser runs
    on it ([select], [select_one], attribute lookups).  Python strings used as
    URLs, titles and cell texts are Rocq [string]s; the price text, which is
    scanned by a regular expression over arbitrary Unicode, is a list of code
    points ([list Z]).  A Python [float] is an IEEE 754 double: a finite
    value [m * 2^e] or [inf] ([PyFloat]). *)

From Stdlib Require Import ZArith List Bool Lia.
From Stdlib Require Import Strings.String Strings.Ascii.
Import ListNotations.
Open Scope string_scope.

(* ------------------------------------------------------------------ *)
(** ** Python string helpers *)

Module Py.

(** [str.isspace] on one character (chars are Latin-1 code points). *)
Definition isspace (c : ascii) : bool :=
  let n := nat_of_ascii c in
  ((9 <=? n) && (n <=? 13))%nat || ((28 <=? n) && (n <=? 32))%nat
  || (n =? 133)%nat || (n =? 160)%nat.

(** [s.lstrip(chars)]: drop the leading run of characters of [chars]. *)
Fixpoint lstrip_set (chars : list ascii) (s : string) : string :=
  match s with
  | EmptyString => EmptyString
  | String c r =>
      if existsb (Ascii.eqb c) chars then lstrip_set chars r else s
  end.

Fixpoint lstrip_ws (s : string) : string :=
  match s with
  | EmptyString => EmptyString
  | String c r => if isspace c then lstrip_ws r else s
  end.

Fixpoint rev_string (s : string) : string :=
  match s with
  | EmptyString => EmptyString
  | String c r => rev_string r ++ String c EmptyString
  end.

(** [s.strip()] *)
Definition strip (s : string) : string :=
  rev_string (lstrip_ws (rev_string (lstrip_ws s))).

(** [s.startswith(p)] *)
Definition startswith (s p : string) : bool := String.prefix p s.

(** truthiness of a [str] *)
Definition truthy (s : string) : bool := negb (String.eqb s "").

(** [s.split('/')] *)
Fixpoint split_slash (s : string) : list string :=
  match s with
  | EmptyString => [EmptyString]
  | String c r =>
      match split_slash r with
      | [] => [String c EmptyString]
      | w :: ws =>
          if Ascii.eqb c "/"%char then EmptyString :: w :: ws
          else String c w :: ws
      end
  end.

(** ['/'.join(ws)] *)
Fixpoint join_slash (ws : list string) : string :=
  match ws with
  | [] => EmptyString
  | [w] => w
  | w :: ws' => w ++ "/" ++ join_slash ws'
  end.

(** [str.isspace] on a Unicode code point. *)
Definition isspace_cp (c : Z) : bool :=
  ((9 <=? c) && (c <=? 13))%Z || ((28 <=? c) && (c <=? 32))%Z
  || (c =? 133)%Z || (c =? 160)%Z || (c =? 5760)%Z
  || ((8192 <=? c) && (c <=? 8202))%Z || (c =? 8232)%Z || (c =? 8233)%Z
  || (c =? 8239)%Z || (c =? 8287)%Z || (c =? 12288)%Z.

Fixpoint lstrip_cp (s : list Z) : list Z :=
  match s with
  | [] => []
  | c :: r => if isspace_cp c then lstrip_cp r else s
  end.

(** [s.strip()] on a code-point string. *)
Definition strip_cp (s : list Z) : list Z :=
  rev (lstrip_cp (rev (lstrip_cp s))).

End Py.

(* ------------------------------------------------------------------ *)
(** ** Python floats

    A [float] is an IEEE 754 binary64 double.  The doubles the program
    makes are non-negative: a finite value [m * 2^e], kept with [m] odd (or
    [PFinite 0 0] for [0.0]) so that equal values are equal terms, or
    [inf]. *)

Inductive PyFloat :=
| PFinite (m e : Z)
| PInf.

(** [0.0] *)
Definition float_zero : PyFloat := PFinite 0 0.

(** [floor(log2(a / b))] for [a, b > 0] *)
Definition floor_log2_q (a b : Z) : Z :=
  let t := (Z.log2 a - Z.log2 b)%Z in
  if (a * 2 ^ Z.max 0 (- t) <? b * 2 ^ Z.max 0 t)%Z then (t - 1)%Z else t.

Fixpoint pos_odd_part (p : positive) (e : Z) : positive * Z :=
  match p with xO q => pos_odd_part q (Z.succ e) | _ => (p, e) end.

(** the double [m * 2^e], with the factors 2 of [m] moved to [e] *)
Definition normalize (m e : Z) : PyFloat :=
  match m with
  | Zpos p => let '(q, e') := pos_odd_part p e in PFinite (Zpos q) e'
  | Zneg p => let '(q, e') := pos_odd_part p e in PFinite (Zneg q) e'
  | Z0 => PFinite 0 0
  end.

(** [num / den] rounded to the nearest integer, ties to even *)
Definition round_half_even (num den : Z) : Z :=
  let q := (num / den)%Z in
  let r := (num mod den)%Z in
  if (den <? 2 * r)%Z then (q + 1)%Z
  else if (2 * r =? den)%Z then (if Z.odd q then (q + 1)%Z else q)
  else q.

(** The double nearest to [a / b] ([a >= 0], [b > 0]), ties to even, and
    [inf] when the rounded value reaches [2^1024]: what [float()] returns
    for a decimal text of that value (CPython's [_Py_dg_strtod] rounds
    correctly, and [float()] gives [inf] on overflow).  The exponent of the
    last place is [floor(log2(a/b)) - 52], and at least [-1074] for the
    subnormals. *)
Definition float_of_ratio (a b : Z) : PyFloat :=
  if (a <=? 0)%Z then float_zero
  else
    let e := Z.max (floor_log2_q a b - 52) (-1074) in
    let m := round_half_even (a * 2 ^ Z.max 0 (- e)) (b * 2 ^ Z.max 0 e) in
    if (2 ^ (1024 - e) <=? m)%Z then PInf else normalize m e.

(** a double that is [inf] or at least [0.0] *)
Definition float_nonneg (f : PyFloat) : Prop :=
  match f with PFinite m _ => (0 <= m)%Z | PInf => True end.

(* ------------------------------------------------------------------ *)
(** ** models/data_models.py *)

Record Book := mkBook {
  title : string;
  price : PyFloat;
  rating : Z;
  availability : string;
  category : string;
  url : string;
  upc : option string;
  description : option string;
  image_url : string
}.

Definition set_upc (b : Book) (u : option string) : Book :=
  mkBook b.(title) b.(price) b.(rating) b.(availability) b.(category)
         b.(url) u b.(description) b.(image_url).

Definition set_description (b : Book) (d : option string) : Book :=
  mkBook b.(title) b.(price) b.(rating) b.(availability) b.(category)
         b.(url) b.(upc) d b.(image_url).

Record Category := mkCategory {
  cat_name : string;
  cat_url : string;
  books : list Book
}.

(** [Category.add_book] *)
Definition add_book (c : Category) (b : Book) : Category :=
  mkCategory c.(cat_name) c.(cat_url) (c.(books) ++ [b]).

(* ------------------------------------------------------------------ *)
(** ** Parsed documents: the results of the parser's CSS queries *)

(** the [h3 > a] anchor of a listing item *)
Record Anchor := mkAnchor {
  a_title : option string;   (* its [title] attribute *)
  a_href : option string     (* its [href] attribute *)
}.

(** one [article.product_pod] element *)
Record Item := mkItem {
  it_anchor : option Anchor;          (* [select_one('h3 > a')] *)
  it_img : option (option string);    (* [select_one('img')], its [src] *)
  it_rating : option (list string);   (* [select_one('p.star-rating')]['class'] *)
  it_price : option (list Z);         (* [select_one('p.price_color')].text *)
  it_avail : option string            (* [select_one('p.availability')].text *)
}.

(** one [tr] of the product information table *)
Record Row := mkRow {
  row_th : option string;   (* [select_one('th')].text *)
  row_td : option string    (* [select_one('td')].text *)
}.

(** a category link [ul > li > ul > li > a] of the side bar *)
Record Link := mkLink {
  link_text : string;
  link_href : option string
}.

Record Document := mkDocument {
  doc_side_categories : option (list Link);  (* [.side_categories] and its links *)
  doc_product_pods : list Item;              (* [select('article.product_pod')] *)
  doc_description : option string;           (* [#product_description + p].text *)
  doc_info_table : option (list Row);        (* [table.table-striped], its rows *)
  doc_next : option (option string)          (* [li.next > a], its [href] *)
}.

(* ------------------------------------------------------------------ *)
(** ** scraper/parser.py: BookParser *)

(** The closed vocabulary of [_extract_rating]'s [rating_map]. *)
Definition rating_map (w : string) : option Z :=
  if String.eqb w "One" then Some 1%Z
  else if String.eqb w "Two" then Some 2%Z
  else if String.eqb w "Three" then Some 3%Z
  else if String.eqb w "Four" then Some 4%Z
  else if String.eqb w "Five" then Some 5%Z
  else None.

(** [for class_name in rating_class['class']: if class_name in rating_map:
    return rating_map[class_name]] ; [return 0] *)
Fixpoint first_rating (classes : list string) : Z :=
  match classes with
  | [] => 0%Z
  | c :: cs => match rating_map c with Some r => r | None => first_rating cs end
  end.

(** [BookParser._extract_rating] *)
Definition _extract_rating (element : Item) : Z :=
  match element.(it_rating) with
  | None => 0%Z
  | Some classes => first_rating classes
  end.

(** The regular expression [£(\d+\.\d+)] searched with [re.search].
    Code points: [£] is 163, [.] is 46.  In a [str] pattern [\d] is any
    Unicode decimal digit (category Nd), and these are also the digits
    [float()] reads.  The Nd characters come in runs of ten consecutive
    code points with the values 0 to 9; [nd_zeros] lists the first code
    point of every run in Unicode 15.0 and 15.1 (CPython 3.12 and 3.13;
    [parse_books_list] nests quotes in an f-string, which needs 3.12). *)
Definition pound : Z := 163%Z.
Definition dot : Z := 46%Z.

Definition nd_zeros : list Z :=
  [48; 1632; 1776; 1984; 2406; 2534; 2662; 2790; 2918; 3046; 3174;
   3302; 3430; 3558; 3664; 3792; 3872; 4160; 4240; 6112; 6160; 6470;
   6608; 6784; 6800; 6992; 7088; 7232; 7248; 42528; 43216; 43264;
   43472; 43504; 43600; 44016; 65296; 66720; 68912; 69734; 69872;
   69942; 70096; 70384; 70736; 70864; 71248; 71360; 71472; 71904;
   72016; 72784; 73040; 73120; 73552; 92768; 92864; 93008; 120782;
   120792; 120802; 120812; 120822; 123200; 123632; 124144; 125264;
   130032]%Z.

(** the zero of the run of the decimal digit [c] *)
Definition digit_zero (c : Z) : option Z :=
  find (fun z => ((z <=? c) && (c <? z + 10))%Z) nd_zeros.

Definition isdigit (c : Z) : bool :=
  match digit_zero c with Some _ => true | None => false end.

(** the value 0..9 of a decimal digit *)
Definition digit_value (c : Z) : Z :=
  match digit_zero c with Some z => (c - z)%Z | None => 0%Z end.

(** greedy [\d+]/[\d*]: the maximal run of digits and the rest *)
Fixpoint span_digits (s : list Z) : list Z * list Z :=
  match s with
  | c :: r =>
      if isdigit c then let '(d, rest) := span_digits r in (c :: d, rest)
      else ([], s)
  | [] => ([], [])
  end.

(** A match of the pattern anchored at the head of [s]: its group 1 split
    at the dot.  [\d+] and [\.] are disjoint, so the greedy runs never
    need to backtrack. *)
Definition match_here (s : list Z) : option (list Z * list Z) :=
  match s with
  | c :: r =>
      if (c =? pound)%Z then
        match span_digits r with
        | ((_ :: _) as d1, c2 :: r2) =>
            if (c2 =? dot)%Z then
              match span_digits r2 with
              | ((_ :: _) as d2, _) => Some (d1, d2)
              | _ => None
              end
            else None
        | _ => None
        end
      else None
  | [] => None
  end.

(** [re.search]: the leftmost position at which the pattern matches. *)
Fixpoint re_search (s : list Z) : option (list Z * list Z) :=
  match s with
  | [] => None
  | _ :: r =>
      match match_here s with
      | Some m => Some m
      | None => re_search r
      end
  end.

(** the integer the decimal digits [d] spell *)
Definition digits_value (d : list Z) : Z :=
  fold_left (fun acc c => acc * 10 + digit_value c)%Z d 0%Z.

(** [float(price_match.group(1))] for the group [d1.d2]: the double
    nearest to the decimal [d1 + d2 / 10^|d2|]. *)
Definition float_of_group (m : list Z * list Z) : PyFloat :=
  let k := Z.of_nat (List.length (snd m)) in
  float_of_ratio (digits_value (fst m) * 10 ^ k + digits_value (snd m))%Z (10 ^ k)%Z.

(** [BookParser._extract_price] *)
Definition _extract_price (element : Item) : PyFloat :=
  match element.(it_price) with
  | None => float_zero
  | Some text =>
      let price_text := Py.strip_cp text in
      match re_search price_text with
      | Some m => float_of_group m
      | None => float_zero
      end
  end.

(** [BookParser._extract_availability] *)
Definition _extract_availability (element : Item) : string :=
  match element.(it_avail) with
  | Some t => Py.strip t
  | None => "Unknown"
  end.

Section Parser.
Variable base_url : string.

(** [BookParser.parse_categories] *)
Definition parse_categories (d : Document) : list Category :=
  match d.(doc_side_categories) with
  | None => []
  | Some links =>
      flat_map (fun link =>
        let u := match link.(link_href) with Some h => h | None => "" end in
        if Py.truthy u then
          [mkCategory (Py.strip link.(link_text))
                      (base_url ++ "/" ++ Py.lstrip_set ["/"%char] u) []]
        else []) links
  end.

(** the body of the loop of [parse_books_list], for one element *)
Definition book_of_element (category_name : string) (element : Item) : Book :=
  let title_ := match element.(it_anchor) with
                | Some a => match a.(a_title) with Some t => t | None => "Unknown" end
                | None => "Unknown" end in
  let url_path := match element.(it_anchor) with
                  | Some a => match a.(a_href) with Some h => h | None => "" end
                  | None => "" end in
  let url_ := if Py.truthy url_path
              then base_url ++ "/" ++ "catalogue" ++ "/"
                   ++ Py.lstrip_set ["."%char; "/"%char] url_path
              else "" in
  let image0 := match element.(it_img) with
                | Some (Some s) => s
                | _ => "" end in
  let image := if Py.truthy image0 && negb (Py.startswith image0 "http")
               then base_url ++ "/" ++ Py.lstrip_set ["/"%char] image0
               else image0 in
  mkBook title_ (_extract_price element) (_extract_rating element)
         (_extract_availability element) category_name url_ None None image.

(** [BookParser.parse_books_list] *)
Definition parse_books_list (d : Document) (category_name : string) : list Book :=
  map (book_of_element category_name) d.(doc_product_pods).

(** one iteration of the row loop of [parse_book_details] *)
Definition upc_row_step (book : Book) (row : Row) : Book :=
  match row.(row_th), row.(row_td) with
  | Some header, Some data =>
      if String.eqb (Py.strip header) "UPC" then set_upc book (Some (Py.strip data))
      else book
  | _, _ => book
  end.

(** [BookParser.parse_book_details] *)
Definition parse_book_details (d : Document) (book : Book) : Book :=
  let book1 := match d.(doc_description) with
               | Some t => set_description book (Some (Py.strip t))
               | None => book end in
  match d.(doc_info_table) with
  | Some rows => fold_left upc_row_step rows book1
  | None => book1
  end.

End Parser.

(** [BookParser.check_next_page] *)
Definition check_next_page (d : Document) : option string :=
  match d.(doc_next) with
  | Some href =>
      let next_url := match href with Some h => h | None => "" end in
      if Py.truthy next_url then Some next_url else None
  | None => None
  end.

(* ------------------------------------------------------------------ *)
(** ** scraper/collector.py: WebCollector

    Time is an integer number of clock ticks.  The environment of one call
    to [get] is a [Timing]: how long after the previous call returned it is
    made, how much later than asked [time.sleep] wakes up together with the
    time between the two [time.time()] reads ([jitter], at least 0), and
    how long [session.get] takes.  The network's answer is a [Response]. *)

Record WebCollector := mkCollector {
  base_url : string;
  rate_limit : Z;
  last_request_time : Z
}.

(** [WebCollector.__init__]: [last_request_time = 0] *)
Definition init_collector (base : string) (rl : Z) : WebCollector :=
  mkCollector base rl 0.

Record Timing := mkTiming {
  idle : Z;
  jitter : Z;
  latency : Z
}.

Definition timing_ok (t : Timing) : Prop :=
  (0 <= t.(idle) /\ 0 <= t.(jitter) /\ 0 <= t.(latency))%Z.

(** [WebCollector._respect_rate_limit] called at clock [now]: the new
    collector and the clock when it returns (= the new
    [last_request_time]). *)
Definition _respect_rate_limit (c : WebCollector) (now jitter_ : Z)
  : WebCollector * Z :=
  let current_time := now in
  let time_since_last := (current_time - c.(last_request_time))%Z in
  let woke := if (time_since_last <? c.(rate_limit))%Z
              then (current_time + (c.(rate_limit) - time_since_last))%Z
              else current_time in
  let t := (woke + jitter_)%Z in
  (mkCollector c.(base_url) c.(rate_limit) t, t).

(** What [session.get] followed by [raise_for_status] yields: a
    [RequestException] raised by the transport, or a final HTTP response. *)
Inductive Response :=
| RequestException (cause : string)
| HttpResponse (status : Z) (reason : string) (text : string).

(** [raise_for_status] raises [HTTPError] for client and server errors. *)
Definition raises_for_status (status : Z) : bool :=
  ((400 <=? status) && (status <? 600))%Z.

(** [full_url] in [WebCollector.get] *)
Definition full_url (c : WebCollector) (u : string) : string :=
  if Py.startswith u "http" then u
  else c.(base_url) ++ "/" ++ Py.lstrip_set ["/"%char] u.

Record GetResult := mkGetResult {
  collector : WebCollector;   (* the collector after the call *)
  dispatched : Z;             (* clock when [session.get] is issued *)
  returned : Z;               (* clock when [get] returns *)
  outcome : option string;    (* the return value *)
  printed : list string       (* lines printed *)
}.

(** [WebCollector.get], called at clock [now]. *)
Definition get (c : WebCollector) (u : string) (now : Z) (tm : Timing)
  (resp : Response) : GetResult :=
  let fu := full_url c u in
  let '(c', t) := _respect_rate_limit c now tm.(jitter) in
  let done_ := (t + tm.(latency))%Z in
  match resp with
  | RequestException e =>
      mkGetResult c' t done_ None ["Error fetching " ++ fu ++ ": " ++ e]
  | HttpResponse status reason text =>
      if raises_for_status status
      then mkGetResult c' t done_ None ["Error fetching " ++ fu ++ ": " ++ reason]
      else mkGetResult c' t done_ (Some text) []
  end.

(** A sequence of calls made one after the other on one collector, starting
    at clock [now]: the results in order. *)
Fixpoint run_calls (c : WebCollector) (now : Z)
  (calls : list (string * Timing * Response)) : list GetResult :=
  match calls with
  | [] => []
  | (u, tm, resp) :: rest =>
      let r := get c u (now + tm.(idle))%Z tm resp in
      r :: run_calls r.(collector) r.(returned) rest
  end.

(** consecutive elements of a list *)
Fixpoint consecutive {A} (P : A -> A -> Prop) (l : list A) : Prop :=
  match l with
  | x :: (y :: _) as r => P x y /\ consecutive P r
  | _ => True
  end.

(** *** Threads calling [get] on one collector

    Several threads may call [get] on the same collector; they share its
    [last_request_time].  Python switches between threads between the
    statements of [_respect_rate_limit] (and [time.sleep] lets the others
    run), and nothing in [get] takes a lock.  A [Pc] is where a thread is in
    [_respect_rate_limit] until it issues [session.get]. *)
Inductive Pc :=
| AtStart                       (* before [current_time = time.time()] *)
| AtSince (current_time : Z)    (* before [time_since_last = current_time - self.last_request_time] *)
| AtCheck (time_since_last : Z) (* before [if time_since_last < self.rate_limit: ... time.sleep] *)
| Sleeping (wake : Z)           (* in [time.sleep(sleep_time)], until the clock reads [wake] *)
| AtStamp                       (* before [self.last_request_time = time.time()] *)
| AtDispatch                    (* before [self.session.get(full_url, params=params)] *)
| Dispatched (at_ : Z).         (* [session.get] was issued at clock [at_] *)

(** one statement of a thread, run at clock [now] on the shared collector;
    [None] when the thread cannot move (still asleep, or done) *)
Definition thread_step (c : WebCollector) (now : Z) (p : Pc) : option (Pc * WebCollector) :=
  match p with
  | AtStart => Some (AtSince now, c)
  | AtSince current_time => Some (AtCheck (current_time - c.(last_request_time))%Z, c)
  | AtCheck time_since_last =>
      if (time_since_last <? c.(rate_limit))%Z
      then Some (Sleeping (now + (c.(rate_limit) - time_since_last))%Z, c)
      else Some (AtStamp, c)
  | Sleeping wake => if (wake <=? now)%Z then Some (AtStamp, c) else None
  | AtStamp => Some (AtDispatch, mkCollector c.(base_url) c.(rate_limit) now)
  | AtDispatch => Some (Dispatched now, c)
  | Dispatched _ => None
  end.

Record Threads := mkThreads {
  clock : Z;              (* what [time.time()] returns *)
  shared : WebCollector;  (* the collector all threads use *)
  pcs : list Pc           (* one per thread *)
}.

(** a schedule step: thread [i] runs one statement, or the clock advances *)
Inductive Action := Run (i : nat) | Wait (d : Z).

Fixpoint set_nth {A} (n : nat) (x : A) (l : list A) : list A :=
  match n, l with
  | O, _ :: r => x :: r
  | S k, y :: r => y :: set_nth k x r
  | _, [] => []
  end.

Definition threads_step (s : Threads) (a : Action) : option Threads :=
  match a with
  | Wait d => if (0 <=? d)%Z then Some (mkThreads (s.(clock) + d) s.(shared) s.(pcs)) else None
  | Run i =>
      match nth_error s.(pcs) i with
      | Some p =>
          match thread_step s.(shared) s.(clock) p with
          | Some (p', c') => Some (mkThreads s.(clock) c' (set_nth i p' s.(pcs)))
          | None => None
          end
      | None => None
      end
  end.

(** a schedule run from a state; [None] when some step cannot be taken *)
Fixpoint threads_run (s : Threads) (acts : list Action) : option Threads :=
  match acts with
  | [] => Some s
  | a :: rest => match threads_step s a with Some s' => threads_run s' rest | None => None end
  end.

(* ------------------------------------------------------------------ *)
(** ** main.py: scrape_all_books

    The orchestrator is sequential code.  The site is [web]: the value
    [collector.get] returns for a full URL (its [None] covers every failure
    of [get]); timing plays no part in what the orchestrator computes.  Each
    call of [collector.get] is recorded in a trace as a [Begin]/[Finish]
    pair, in the order the calls happen.  The parsing of a body is [soup].
    The Python loop over listing pages is unbounded; here it runs on [fuel]
    pages. *)

Inductive Event := Begin (u : string) | Finish (u : string).

(** truthiness of [Optional[str]]: [if html_content:] *)
Definition truthy_opt (h : option string) : bool :=
  match h with Some s => Py.truthy s | None => false end.

Definition body (h : option string) : string :=
  match h with Some s => s | None => "" end.

(** [max_books_per_category is None or book_count < max_books_per_category] *)
Definition below_cap (cap : option Z) (count : Z) : bool :=
  match cap with None => true | Some n => (count <? n)%Z end.

(** ['/'.join(current_url.split('/')[:-1])] *)
Definition current_dir (current_url : string) : string :=
  Py.join_slash (removelast (Py.split_slash current_url)).

Section Orchestrator.
Variable site : string.                  (* [base_url] *)
Variable soup : string -> Document.
Variable web : string -> option string.

Definition the_collector : WebCollector := init_collector site 1%Z.

(** [collector.get(u)] *)
Definition fetch (u : string) : option string * list Event :=
  let fu := full_url the_collector u in
  (web fu, [Begin fu; Finish fu]).

(** [for book in books:] of one listing page *)
Fixpoint process_books (cap : option Z) (bs : list Book) (count : Z)
  (acc : list Book) (tr : list Event) : list Book * Z * list Event :=
  match bs with
  | [] => (acc, count, tr)
  | book :: rest =>
      if negb (below_cap cap count) then (acc, count, tr)   (* break *)
      else
        let '(book_html, ev) := fetch book.(url) in
        let book' := if truthy_opt book_html
                     then parse_book_details (soup (body book_html)) book
                     else book in
        process_books cap rest (count + 1)%Z (acc ++ [book'])%list (tr ++ ev)%list
  end.

(** [while html_content and (...):] over the pages of one category *)
Fixpoint page_loop (fuel : nat) (cap : option Z) (name current_url : string)
  (html_content : option string) (count : Z) (acc : list Book)
  (tr : list Event) : list Book * list Event :=
  match fuel with
  | O => (acc, tr)
  | S fuel' =>
      if truthy_opt html_content && below_cap cap count then
        let d := soup (body html_content) in
        let bs := parse_books_list site d name in
        let '(acc', count', tr') := process_books cap bs count acc tr in
        match check_next_page d with
        | Some next_page =>
            if below_cap cap count' then
              let next := if Py.startswith next_page "http" then next_page
                          else current_dir current_url ++ "/" ++ next_page in
              let '(h, ev) := fetch next in
              page_loop fuel' cap name next h count' acc' (tr' ++ ev)%list
            else (acc', tr')
        | None => (acc', tr')
        end
      else (acc, tr)
  end.

(** the body of [for category in categories:] *)
Definition scrape_category (fuel : nat) (cap : option Z) (c : Category)
  : Category * list Event :=
  let '(html_content, ev) := fetch c.(cat_url) in
  if negb (truthy_opt html_content) then (c, ev)        (* continue *)
  else
    let '(bs, tr) := page_loop fuel cap c.(cat_name) c.(cat_url)
                               html_content 0%Z c.(books) ev in
    (mkCategory c.(cat_name) c.(cat_url) bs, tr).

Fixpoint scrape_categories (fuel : nat) (cap : option Z) (cs : list Category)
  : list Category * list Event :=
  match cs with
  | [] => ([], [])
  | c :: rest =>
      let '(c', ev) := scrape_category fuel cap c in
      let '(rest', tr) := scrape_categories fuel cap rest in
      (c' :: rest', (ev ++ tr)%list)
  end.

(** [scrape_all_books(base_url, max_books_per_category)] *)
Definition scrape_all_books (fuel : nat) (cap : option Z)
  : list Category * list Event :=
  let '(homepage_html, ev) := fetch "/" in
  if negb (truthy_opt homepage_html) then ([], ev)
  else
    let cs := parse_categories site (soup (body homepage_html)) in
    let '(cs', tr) := scrape_categories fuel cap cs in
    (cs', (ev ++ tr)%list).

End Orchestrator.

(** the number of [get] calls in flight after each event, and its maximum *)
Fixpoint max_in_flight_from (cur : nat) (tr : list Event) : nat :=
  match tr with
  | [] => cur
  | Begin _ :: r => Nat.max (S cur) (max_in_flight_from (S cur) r)
  | Finish _ :: r => Nat.max cur (max_in_flight_from (Nat.pred cur) r)
  end.

Definition max_in_flight (tr : list Event) : nat := max_in_flight_from 0 tr.

(* ================================================================== *)
(** * Vocabulary of the properties *)

Definition error_line (fu cause : string) : string :=
  "Error fetching " ++ fu ++ ": " ++ cause.

(** the detail href [parse_books_list] reads from an element *)
Definition element_href (element : Item) : string :=
  match element.(it_anchor) with
  | Some a => match a.(a_href) with Some h => h | None => "" end
  | None => "" end.

(** the image [src] it reads *)
Definition element_src (element : Item) : string :=
  match element.(it_img) with Some (Some s) => s | _ => "" end.

(** the fields [parse_books_list] sets from a listing element *)
Definition summary (b : Book) :=
  (b.(title), b.(price), b.(rating), b.(availability), b.(category), b.(url),
   b.(image_url)).

Open Scope list_scope.

Definition digit_free_head (s : list Z) : Prop :=
  match s with c :: _ => isdigit c = false | [] => True end.

(** A match of [£(\d+\.\d+)] starting at the head of [s], with group 1
    split at the dot; [\d+] is greedy, so the second run is maximal. *)
Definition matches_here (s : list Z) (d1 d2 : list Z) : Prop :=
  exists rest, s = pound :: d1 ++ dot :: d2 ++ rest
  /\ d1 <> [] /\ d2 <> []
  /\ Forall (fun c => isdigit c = true) d1
  /\ Forall (fun c => isdigit c = true) d2
  /\ digit_free_head rest.

(** a match starting at position [i] *)
Definition matches_at (s : list Z) (i : nat) (d1 d2 : list Z) : Prop :=
  matches_here (skipn i s) d1 d2.

(** a row whose header cell's text (stripped, as the code compares it) is
    exactly ["UPC"] *)
Definition is_upc_row (row : Row) : bool :=
  match row.(row_th) with
  | Some h => String.eqb (Py.strip h) "UPC"
  | None => false
  end.

Definition sample_summary : Book :=
  mkBook "A Light in the Attic" (float_of_ratio 5177 100) 3 "In stock (22 available)" "Poetry"
    "http://books.toscrape.com/catalogue/a-light-in-the-attic_1000/index.html"
    None None "http://books.toscrape.com/media/cache/fe/72/fe72.jpg".

(** how many of [n] summaries the book loop keeps before its [break] *)
Definition retained (cap : option Z) (count : Z) (n : nat) : nat :=
  match cap with
  | None => n
  | Some m => Nat.min n (Z.to_nat (m - count))
  end.

(** ['/'.join(current_url.split('/')[:-1]) + '/' + next_page] unless absolute *)
Definition resolve_next (current_url next_page : string) : string :=
  if Py.startswith next_page "http" then next_page
  else (current_dir current_url ++ "/" ++ next_page)%string.

(** the orchestrator seen one summary at a time *)
Section Enrichment.
Variables (site : string) (soup : string -> Document) (web : string -> option string).

(** a book after the detail step of the loop: enriched when its page was
    fetched, the summary itself otherwise *)
Definition enrich (book : Book) : Book :=
  let book_html := fst (fetch site web book.(url)) in
  if truthy_opt book_html then parse_book_details (soup (body book_html)) book
  else book.

Definition detail_events (book : Book) : list Event := snd (fetch site web book.(url)).

End Enrichment.

(** a trace in which every call of [get] finishes before the next begins *)
Inductive sequential : list Event -> Prop :=
| seq_nil : sequential []
| seq_call : forall u tr, sequential tr -> sequential (Begin u :: Finish u :: tr).

(** A sample site: one category of two listing pages; the detail page of
    "soumission" cannot be fetched. *)
Definition sample_base : string := "http://books.toscrape.com".

Definition sample_item (slug word : string) : Item :=
  mkItem (Some (mkAnchor (Some slug) (Some ("../../../" ++ slug ++ "/index.html")%string)))
         (Some (Some ("../../../../media/cache/" ++ slug ++ ".jpg")%string))
         (Some ["star-rating"; word])
         (Some [163; 49; 48; 46; 48; 48]%Z)
         (Some " In stock ").

Definition home_doc : Document :=
  mkDocument (Some [mkLink " Poetry " (Some "catalogue/category/books/poetry_23/index.html")])
             [] None None None.

Definition page1_doc : Document :=
  mkDocument None
    [sample_item "a-light-in-the-attic_1000" "Three";
     sample_item "tipping-the-velvet_999" "One";
     sample_item "soumission_998" "One";
     sample_item "sharp-objects_997" "Four";
     sample_item "sapiens_996" "Five"]
    None None (Some (Some "page-2.html")).

Definition page2_doc : Document :=
  mkDocument None [sample_item "the-requiem-red_995" "One"] None None None.

Definition detail_doc : Document :=
  mkDocument None [] (Some " A book. ")
    (Some [mkRow (Some "UPC") (Some "a897fe39b1053632");
           mkRow (Some "Product Type") (Some "Books")]) None.

Definition empty_doc : Document := mkDocument None [] None None None.

Definition sample_soup (html : string) : Document :=
  if String.eqb html "home" then home_doc
  else if String.eqb html "page1" then page1_doc
  else if String.eqb html "page2" then page2_doc
  else if String.eqb html "detail" then detail_doc
  else empty_doc.

(** the detail page of "soumission" cannot be fetched *)
Definition sample_web (u : string) : option string :=
  if String.eqb u "http://books.toscrape.com/" then Some "home"
  else if String.eqb u "http://books.toscrape.com/catalogue/category/books/poetry_23/index.html"
  then Some "page1"
  else if String.eqb u "http://books.toscrape.com/catalogue/category/books/poetry_23/page-2.html"
  then Some "page2"
  else if String.eqb u "http://books.toscrape.com/catalogue/soumission_998/index.html"
  then None
  else Some "detail".

Definition soumission : Book :=
  book_of_element sample_base "Poetry" (sample_item "soumission_998" "One").

(* ------------------------------------------------------------------ *)
(** ** models/data_models.py: the dictionaries of [to_dict]

    A value stored in one of these dictionaries, as [json] and [csv] see
    it; a dictionary is the list of its entries in insertion order. *)

#[warnings="-register-all"]
Inductive Value :=
| VStr (s : string)
| VFloat (f : PyFloat)
| VInt (z : Z)
| VNone
| VList (l : list Value)
| VDict (d : list (string * Value)).

Definition Dict := list (string * Value).

(** [d.get(k, default)] *)
Fixpoint dict_get (d : Dict) (k : string) (default : Value) : Value :=
  match d with
  | [] => default
  | (k', v) :: rest => if String.eqb k k' then v else dict_get rest k default
  end.

(** an [Optional[str]] field *)
Definition opt_value (o : option string) : Value :=
  match o with Some s => VStr s | None => VNone end.

(** [Book.to_dict] *)
Definition book_to_dict (b : Book) : Dict :=
  [("title", VStr b.(title)); ("price", VFloat b.(price)); ("rating", VInt b.(rating));
   ("availability", VStr b.(availability)); ("category", VStr b.(category));
   ("url", VStr b.(url)); ("upc", opt_value b.(upc));
   ("description", opt_value b.(description)); ("image_url", VStr b.(image_url))].

(** [Category.book_count] *)
Definition book_count (c : Category) : Z := Z.of_nat (List.length c.(books)).

(** [Category.to_dict] *)
Definition category_to_dict (c : Category) : Dict :=
  [("name", VStr c.(cat_name)); ("url", VStr c.(cat_url));
   ("book_count", VInt (book_count c));
   ("books", VList (map (fun b => VDict (book_to_dict b)) c.(books)))].

(* ------------------------------------------------------------------ *)
(** ** utils/file_handler.py: FileHandler

    The files the handler writes form a store, the latest write of a path
    first.  A file holds what [json.dump] writes for a value, or what a
    [csv.DictWriter] writes: its header and its rows, each row the cells in
    header order.  Whether [open(filepath, 'w')] succeeds is [can_open];
    the messages the handler prints are left out. *)

Module PyPath.

(** [s.endswith(p)] *)
Definition endswith (s p : string) : bool :=
  String.prefix (Py.rev_string p) (Py.rev_string s).

(** [os.path.join(a, b)] (posixpath) *)
Definition join (a b : string) : string :=
  if Py.startswith b "/" then b
  else if negb (Py.truthy a) || endswith a "/" then (a ++ b)%string
  else (a ++ "/" ++ b)%string.

End PyPath.

Inductive FileContent :=
| JsonText (v : Value)
| CsvText (header : list string) (rows : list (list Value)).

Definition Store := list (string * FileContent).

Fixpoint read_file (fs : Store) (path : string) : option FileContent :=
  match fs with
  | [] => None
  | (p, c) :: rest => if String.eqb path p then Some c else read_file rest path
  end.

Definition write_file (fs : Store) (path : string) (c : FileContent) : Store :=
  (path, c) :: fs.

(** [csv.DictWriter._dict_to_list] with [extrasaction='raise'] and
    [restval='']: [None] stands for the [ValueError] raised when [rowdict]
    has a key outside [fieldnames]. *)
Definition dict_to_list (fieldnames : list string) (rowdict : Dict) : option (list Value) :=
  if existsb (fun kv => negb (existsb (String.eqb (fst kv)) fieldnames)) rowdict
  then None
  else Some (map (fun k => dict_get rowdict k (VStr "")) fieldnames).

(** [writer.writerows(data)]: the rows written, and [false] when a row
    raised (the rows before it are written). *)
Fixpoint write_rows (fieldnames : list string) (data : list Dict) : list (list Value) * bool :=
  match data with
  | [] => ([], true)
  | rowdict :: rest =>
      match dict_to_list fieldnames rowdict with
      | None => ([], false)
      | Some row => let '(rows, ok) := write_rows fieldnames rest in (row :: rows, ok)
      end
  end.

Section FileHandler.
Variable data_dir : string.
Variable can_open : string -> bool.

(** [FileHandler.save_to_json] *)
Definition save_to_json (data : list Dict) (filename : string) (fs : Store) : Store * bool :=
  let filepath := PyPath.join data_dir filename in
  if can_open filepath
  then (write_file fs filepath (JsonText (VList (map VDict data))), true)
  else (fs, false).

(** [FileHandler.save_to_csv] *)
Definition save_to_csv (data : list Dict) (filename : string) (fs : Store) : Store * bool :=
  match data with
  | [] => (fs, false)                                  (* "No data to save" *)
  | first :: _ =>
      let filepath := PyPath.join data_dir filename in
      let fieldnames := map fst first in
      if can_open filepath then
        let '(rows, ok) := write_rows fieldnames data in
        (write_file fs filepath (CsvText fieldnames rows), ok)
      else (fs, false)
  end.

(** [save_data] of main.py, with the handler of [data_dir] *)
Definition save_data (categories : list Category) (fs : Store) : Store :=
  let all_books := flat_map (fun c => map book_to_dict c.(books)) categories in
  let fs1 := match all_books with
             | [] => fs
             | _ :: _ =>
                 let fs' := fst (save_to_csv all_books "books.csv" fs) in
                 fst (save_to_json all_books "books.json" fs')
             end in
  let categories_data := map category_to_dict categories in
  match categories_data with
  | [] => fs1
  | _ :: _ => fst (save_to_json categories_data "categories.json" fs1)
  end.

End FileHandler.

(** the row [books.csv] gets for a book: its fields in [to_dict] order *)
Definition book_row (b : Book) : list Value := map snd (book_to_dict b).

Definition book_fields : list string :=
  ["title"; "price"; "rating"; "availability"; "category"; "url"; "upc";
   "description"; "image_url"].

(** the [book_count] entry of a category's dictionary *)
Definition count_of (v : Value) : Z :=
  match v with
  | VDict d => match dict_get d "book_count" VNone with VInt z => z | _ => 0%Z end
  | _ => 0%Z
  end.

(** a text with no whitespace at either end *)
Definition stripped (s : string) : Prop :=
  match s with EmptyString => True | String c _ => Py.isspace c = false end
  /\ match Py.rev_string s with EmptyString => True | String c _ => Py.isspace c = false end.

(** the [href] of a side-bar link, [''] when it has none *)
Definition link_url (l : Link) : string :=
  match l.(link_href) with Some h => h | None => "" end.

(** [n] slashes *)
Fixpoint slashes (n : nat) : string :=
  match n with O => "" | S k => String "/" (slashes k) end.

(* ================================================================== *)
(** * Properties *)

Open Scope string_scope.

(* ------------------------------------------------------------------ *)
(** ** The rate limiter *)

Lemma respect_rate_limit_after_last : forall c now j,
  (0 <= j)%Z ->
  (c.(last_request_time) + c.(rate_limit) <= snd (_respect_rate_limit c now j))%Z
  /\ fst (_respect_rate_limit c now j)
     = mkCollector c.(base_url) c.(rate_limit) (snd (_respect_rate_limit c now j)).
Proof.
  intros [b rl last] now j Hj; unfold _respect_rate_limit; simpl.
  destruct (Z.ltb_spec (now - last) rl); simpl; split; auto; lia.
Qed.

Lemma get_collector : forall c u now tm resp,
  (get c u now tm resp).(collector)
  = mkCollector c.(base_url) c.(rate_limit) (get c u now tm resp).(dispatched).
Proof.
  intros c u now tm resp; unfold get, _respect_rate_limit.
  destruct resp as [e | s r x]; [| destruct (raises_for_status s)]; reflexivity.
Qed.

Lemma get_dispatch_after_last : forall c u now tm resp,
  (0 <= tm.(jitter))%Z ->
  (c.(last_request_time) + c.(rate_limit) <= (get c u now tm resp).(dispatched))%Z.
Proof.
  intros c u now tm resp Hj; unfold get.
  pose proof (respect_rate_limit_after_last c now (jitter tm) Hj) as [H _].
  destruct (_respect_rate_limit c now (jitter tm)) as [c' t]; simpl in H.
  destruct resp as [e | s r x]; [| destruct (raises_for_status s)]; simpl; exact H.
Qed.

(** For calls made one after the other on one collector, every request
    after the first is dispatched at least [rate_limit] ticks after the
    previous request was dispatched. *)
Lemma run_calls_dispatch_spacing : forall calls c now,
  Forall (fun call : string * Timing * Response =>
            (0 <= (snd (fst call)).(jitter))%Z) calls ->
  consecutive (fun r1 r2 => (r1.(dispatched) + c.(rate_limit) <= r2.(dispatched))%Z)
              (run_calls c now calls).
Proof.
  induction calls as [| [[u tm] resp] rest IH]; intros c now Hall; simpl; [exact I |].
  inversion Hall as [| ? ? Hj Hrest]; subst; simpl in Hj.
  set (r1 := get c u (now + idle tm)%Z tm resp).
  assert (Hc : r1.(collector) = mkCollector c.(base_url) c.(rate_limit) r1.(dispatched))
    by apply get_collector.
  specialize (IH r1.(collector) r1.(returned) Hrest).
  rewrite Hc in IH; simpl in IH.
  destruct rest as [| [[u2 tm2] resp2] rest2]; simpl; [exact I |].
  split.
  - inversion Hrest as [| ? ? Hj2 _]; subst; simpl in Hj2.
    rewrite Hc.
    pose proof (get_dispatch_after_last
                  (mkCollector (base_url c) (rate_limit c) (dispatched r1))
                  u2 (returned r1 + idle tm2)%Z tm2 resp2 Hj2) as H.
    simpl in H; exact H.
  - rewrite Hc; simpl in IH; exact IH.
Qed.

Ltac decide_clock :=
  repeat (cbn; match goal with
  | |- context [(?x <=? ?y)%Z] => destruct (Z.leb_spec x y); try (exfalso; lia)
  | |- context [(?x <? ?y)%Z] => destruct (Z.ltb_spec x y); try (exfalso; lia)
  end); cbn.

(** A thread run alone does what [get] does (with no clock jitter): it
    issues its request when [get] dispatches, and leaves the collector as
    [get] does. *)
Lemma single_thread_as_get : forall c u now resp,
  let r := get c u now (mkTiming 0 0 0) resp in
  exists acts, threads_run (mkThreads now c [AtStart]) acts
    = Some (mkThreads r.(dispatched) r.(collector) [Dispatched r.(dispatched)]).
Proof.
  intros [b rl last] u now resp r.
  assert (Hr : r.(dispatched) = (if (now - last <? rl)%Z then now + (rl - (now - last)) else now)%Z
               /\ r.(collector) = mkCollector b rl r.(dispatched)).
  { unfold r, get, _respect_rate_limit; cbn [base_url rate_limit last_request_time jitter].
    destruct resp as [e | st rs x]; [| destruct (raises_for_status st)];
      cbn [dispatched collector]; rewrite Z.add_0_r; split; reflexivity. }
  destruct Hr as [Hd Hc]; rewrite Hc, Hd; clear Hc Hd r.
  destruct (Z.ltb_spec (now - last) rl) as [Hlt | Hge].
  - exists [Run 0; Run 0; Run 0; Wait (rl - (now - last)); Run 0; Run 0; Run 0].
    cbn; decide_clock; reflexivity.
  - exists [Run 0; Run 0; Run 0; Run 0; Run 0].
    cbn; decide_clock; reflexivity.
Qed.

(** Two threads that call [get] together on any collector can both pass
    the check before either stamps [last_request_time], and then issue
    their requests at the same instant. *)
Lemma two_threads_same_instant : forall c now,
  exists acts t,
    threads_run (mkThreads now c [AtStart; AtStart]) acts
      = Some (mkThreads t (mkCollector c.(base_url) c.(rate_limit) t)
                        [Dispatched t; Dispatched t])
    /\ t = Z.max now (c.(last_request_time) + c.(rate_limit)).
Proof.
  intros [b rl last] now; cbn [base_url rate_limit last_request_time].
  destruct (Z.ltb_spec (now - last) rl) as [Hlt | Hge].
  - exists [Run 0; Run 0; Run 0; Run 1; Run 1; Run 1; Wait (rl - (now - last));
            Run 0; Run 0; Run 0; Run 1; Run 1; Run 1].
    eexists; split; [cbn; decide_clock; reflexivity | lia].
  - exists [Run 0; Run 0; Run 0; Run 1; Run 1; Run 1; Run 0; Run 0; Run 1; Run 1].
    eexists; split; [cbn; decide_clock; reflexivity | lia].
Qed.

(** C1 (as amended).  Calls made one after the other on one collector are
    dispatched at least [rate_limit] ticks apart, the interval measured
    from the previous dispatch (the time [_respect_rate_limit] stores in
    [last_request_time]), not from the previous request's completion; the
    only assumption is that the clock does not run backwards while [get]
    sleeps.  Concurrent calls are not serialised: two threads that call
    [get] together on any collector can both issue their requests at the
    same instant, the later of the clock and
    [last_request_time + rate_limit]. *)
Theorem get_rate_limit_spacing :
  (forall calls c now,
     Forall (fun call : string * Timing * Response =>
               (0 <= (snd (fst call)).(jitter))%Z) calls ->
     consecutive (fun r1 r2 => (r1.(dispatched) + c.(rate_limit) <= r2.(dispatched))%Z)
                 (run_calls c now calls))
  /\ (forall c now, exists acts t,
        threads_run (mkThreads now c [AtStart; AtStart]) acts
          = Some (mkThreads t (mkCollector c.(base_url) c.(rate_limit) t)
                            [Dispatched t; Dispatched t])
        /\ t = Z.max now (c.(last_request_time) + c.(rate_limit))).
Proof. split; [exact run_calls_dispatch_spacing | exact two_threads_same_instant]. Qed.

(** C1 (the claim as stated fails).  One after the other, with
    [rate_limit = 1]: a first request dispatched at tick 1000 that takes 5
    ticks completes at 1005, and a second call made right away is
    dispatched at 1005, 0 ticks after the previous request completed.
    Concurrently: two threads calling [get] together at tick 1000 on a new
    collector both issue their requests at tick 1000, 0 ticks apart. *)
Lemma rate_limit_claim_counterexample :
  (let c := init_collector "http://books.toscrape.com" 1%Z in
   let ok := HttpResponse 200 "OK" "<html></html>" in
   let rs := run_calls c 1000%Z [("/", mkTiming 0 0 5, ok); ("/", mkTiming 0 0 0, ok)] in
   map dispatched rs = [1000; 1005]%Z /\ map returned rs = [1005; 1005]%Z
   /\ ~ consecutive (fun r1 r2 => (r1.(returned) + c.(rate_limit) <= r2.(dispatched))%Z) rs)
  /\ threads_run (mkThreads 1000 (init_collector "http://books.toscrape.com" 1) [AtStart; AtStart])
       [Run 0; Run 0; Run 0; Run 1; Run 1; Run 1; Run 0; Run 0; Run 1; Run 1]
     = Some (mkThreads 1000 (mkCollector "http://books.toscrape.com" 1 1000)
                       [Dispatched 1000; Dispatched 1000])%Z.
Proof.
  split; [| vm_compute; reflexivity].
  vm_compute. split; [reflexivity | split; [reflexivity |]].
  intros [H _]; apply H; reflexivity.
Qed.

(** Witness for [get_rate_limit_spacing]: three calls one after the other,
    and two threads on a collector that requested at tick 1000. *)
Lemma get_rate_limit_spacing_witness :
  consecutive (fun r1 r2 => (r1.(dispatched) + 1 <= r2.(dispatched))%Z)
    (run_calls (init_collector "http://books.toscrape.com" 1%Z) 1000%Z
       [("/", mkTiming 0 0 5, HttpResponse 200 "OK" "");
        ("/a", mkTiming 0 0 0, RequestException "timeout");
        ("/b", mkTiming 0 2 0, HttpResponse 404 "Not Found" "")])
  /\ exists acts,
       threads_run (mkThreads 1000 (mkCollector "http://books.toscrape.com" 1 1000)
                              [AtStart; AtStart]) acts
       = Some (mkThreads 1001 (mkCollector "http://books.toscrape.com" 1 1001)
                         [Dispatched 1001; Dispatched 1001])%Z.
Proof.
  split.
  - apply (proj1 get_rate_limit_spacing _ (init_collector "http://books.toscrape.com" 1%Z)).
    repeat constructor; simpl; lia.
  - destruct (proj2 get_rate_limit_spacing (mkCollector "http://books.toscrape.com" 1 1000) 1000%Z)
      as [acts [t [H Ht]]].
    exists acts; rewrite H; cbn in Ht; subst t; reflexivity.
Defined.

(* ------------------------------------------------------------------ *)
(** ** Failures of [WebCollector.get] *)


(** C3 (as amended).  [get] returns [None] when the transport raises a
    [RequestException] and when the final HTTP status is in 400..599
    ([raise_for_status]); then the full URL and the cause are only printed.
    Otherwise it returns the complete response text, whatever the status
    (a 1xx or 3xx final response included). *)
Theorem get_outcome_normalised : forall c u now tm resp,
  (get c u now tm resp).(outcome)
  = match resp with
    | RequestException _ => None
    | HttpResponse status _ text =>
        if ((400 <=? status) && (status <? 600))%Z then None else Some text
    end
  /\ (get c u now tm resp).(printed)
  = match resp with
    | RequestException e => [error_line (full_url c u) e]
    | HttpResponse status reason _ =>
        if ((400 <=? status) && (status <? 600))%Z
        then [error_line (full_url c u) reason] else []
    end.
Proof.
  intros c u now tm resp; unfold get, error_line, raises_for_status.
  destruct (_respect_rate_limit c now (jitter tm)) as [c' t].
  destruct resp as [e | s r x]; [| destruct ((400 <=? s) && (s <? 600))%Z];
    split; reflexivity.
Qed.

(** C3 (the claim as stated fails).  The value [get] returns on failure is
    [None] for every failing URL and every cause, so it carries neither;
    and a final [304] response (non-2xx) is returned as a body. *)
Lemma get_failure_carries_nothing :
  let c := init_collector "http://books.toscrape.com" 1%Z in
  let tm := mkTiming 0 0 0 in
  "/a" <> "/b" /\ "timeout" <> "404 Not Found"
  /\ (get c "/a" 5000 tm (RequestException "timeout")).(outcome)
     = (get c "/b" 5000 tm (HttpResponse 404 "404 Not Found" "partial")).(outcome)
  /\ (get c "/a" 5000 tm (HttpResponse 304 "Not Modified" "")).(outcome) = Some "".
Proof.
  simpl. repeat split; try reflexivity; discriminate.
Qed.

(* ------------------------------------------------------------------ *)
(** ** URLs of book summaries *)


Lemma prefix_app : forall p s t,
  String.prefix p s = true -> String.prefix p (s ++ t) = true.
Proof.
  induction p as [| a p IH]; intros s t H; [destruct (s ++ t); reflexivity |].
  destruct s as [| b s]; [discriminate |]; simpl in *.
  destruct (Ascii.ascii_dec a b); [apply IH; exact H | discriminate].
Qed.

(** C2 (as amended).  For each listing element and the book built from it:
    an empty or missing detail href gives the URL [""]; a non-empty href
    not starting with ["http"] gives [base_url + "/catalogue/" + href]
    with the whole leading run of ['.'] and ['/'] removed, which starts
    with ["http"] whenever [base_url] does; the image URL is the [src]
    itself when it is empty or starts with ["http"], and otherwise
    [base_url + "/" + src] without leading ['/'].  On the relative path
    ["../../../x.jpg"] the two rules give different URLs. *)
Theorem parse_books_list_urls : forall base d name,
  Forall2 (fun element b =>
      (element_href element = "" -> b.(url) = "")
      /\ (element_href element <> "" ->
          Py.startswith (element_href element) "http" = false ->
          b.(url) = base ++ "/catalogue/"
                    ++ Py.lstrip_set ["."%char; "/"%char] (element_href element)
          /\ (Py.startswith base "http" = true -> Py.startswith b.(url) "http" = true))
      /\ b.(image_url)
         = (if Py.truthy (element_src element)
               && negb (Py.startswith (element_src element) "http")
            then base ++ "/" ++ Py.lstrip_set ["/"%char] (element_src element)
            else element_src element))
    d.(doc_product_pods) (parse_books_list base d name)
  /\ base ++ "/catalogue/" ++ Py.lstrip_set ["."%char; "/"%char] "../../../x.jpg"
     <> base ++ "/" ++ Py.lstrip_set ["/"%char] "../../../x.jpg".
Proof.
  intros base d name; split.
  - unfold parse_books_list.
    induction (doc_product_pods d) as [| e es IH]; simpl; constructor; [| exact IH].
    unfold book_of_element, element_href, element_src; simpl.
    set (h := match it_anchor e with
              | Some a => match a_href a with Some h => h | None => "" end
              | None => "" end).
    split; [intros Hh; rewrite Hh; reflexivity | split; [| reflexivity]].
    intros Hh _; unfold Py.truthy.
    destruct (String.eqb_spec h ""); [contradiction |]; simpl.
    split; [reflexivity | intros Hb; apply prefix_app; exact Hb].
  - intros H.
    apply (f_equal (fun s => String.substring (String.length base) 9 s)) in H.
    induction base as [| a base IH]; [discriminate H | apply IH; exact H].
Qed.

(** C2 (the claim as stated fails).  A listing element whose title anchor
    has no [href] yields a book whose URL is the empty string, not an
    absolute URL. *)
Lemma book_url_empty_without_href :
  let element := mkItem (Some (mkAnchor (Some "A Light in the Attic") None))
                        None None None None in
  (book_of_element "http://books.toscrape.com" "Poetry" element).(url) = ""
  /\ Py.startswith "" "http" = false.
Proof. split; reflexivity. Qed.

(** An absolute detail href is not recognised: the prefix is added to it. *)
Example book_url_absolute_href :
  (book_of_element "http://books.toscrape.com" "Poetry"
     (mkItem (Some (mkAnchor None (Some "http://books.toscrape.com/catalogue/x/index.html")))
             None None None None)).(url)
  = "http://books.toscrape.com/catalogue/http://books.toscrape.com/catalogue/x/index.html".
Proof. reflexivity. Qed.

(* ------------------------------------------------------------------ *)
(** ** Invariants of every book of a run

    A property of books that holds for every summary [parse_books_list]
    builds and that [parse_book_details] preserves holds for every book of
    every category [scrape_all_books] returns. *)

Section Invariant.
Variables (site : string) (soup : string -> Document) (web : string -> option string).
Variable P : Book -> Prop.
Hypothesis P_details : forall d b, P b -> P (parse_book_details d b).
Hypothesis P_list : forall d name, Forall P (parse_books_list site d name).

Lemma process_books_inv : forall cap bs count acc tr,
  Forall P bs -> Forall P acc ->
  Forall P (fst (fst (process_books site soup web cap bs count acc tr))).
Proof.
  intros cap bs; induction bs as [| b bs IH]; intros count acc tr Hbs Hacc; simpl;
    [exact Hacc |].
  inversion Hbs as [| ? ? Hb Hbs']; subst.
  destruct (negb (below_cap cap count)); [exact Hacc |].
  apply IH; [exact Hbs' |].
  apply Forall_app; split; [exact Hacc |]; constructor; [| constructor].
  destruct (truthy_opt (web (full_url (the_collector site) (url b)))); auto.
Qed.

Lemma page_loop_inv : forall fuel cap name cur html count acc tr,
  Forall P acc ->
  Forall P (fst (page_loop site soup web fuel cap name cur html count acc tr)).
Proof.
  induction fuel as [| fuel IH]; intros cap name cur html count acc tr Hacc; simpl;
    [exact Hacc |].
  destruct (truthy_opt html && below_cap cap count); [| exact Hacc].
  pose proof (process_books_inv cap (parse_books_list site (soup (body html)) name)
                count acc tr (P_list _ _) Hacc) as Hp.
  destruct (process_books site soup web cap _ count acc tr) as [[acc' count'] tr'].
  simpl in Hp.
  destruct (check_next_page (soup (body html))) as [np |]; [| exact Hp].
  destruct (below_cap cap count'); [| exact Hp].
  apply IH; exact Hp.
Qed.

Lemma parse_categories_empty : forall d,
  Forall (fun c => c.(books) = []) (parse_categories site d).
Proof.
  intros d; unfold parse_categories.
  destruct (doc_side_categories d) as [links |]; [| constructor].
  induction links as [| l ls IH]; simpl; [constructor |].
  apply Forall_app; split; [| exact IH].
  destruct (Py.truthy _); repeat constructor.
Qed.

Lemma scrape_categories_inv : forall fuel cap cs,
  Forall (fun c => Forall P c.(books)) cs ->
  Forall (fun c => Forall P c.(books)) (fst (scrape_categories site soup web fuel cap cs)).
Proof.
  intros fuel cap cs; induction cs as [| c cs IH]; intros Hcs; simpl; [constructor |].
  inversion Hcs as [| ? ? Hc Hcs']; subst.
  unfold scrape_category.
  destruct (scrape_categories site soup web fuel cap cs) as [cs' tr] eqn:E.
  simpl in IH; specialize (IH Hcs').
  destruct (fetch site web (cat_url c)) as [h ev].
  destruct (negb (truthy_opt h)); simpl; [constructor; auto |].
  pose proof (page_loop_inv fuel cap (cat_name c) (cat_url c) h 0 (books c) ev Hc) as Hl.
  destruct (page_loop site soup web fuel cap _ _ h 0 (books c) ev) as [bs tr2].
  simpl in *; constructor; auto.
Qed.

Lemma scrape_all_books_inv : forall fuel cap,
  Forall (fun c => Forall P c.(books)) (fst (scrape_all_books site soup web fuel cap)).
Proof.
  intros fuel cap; unfold scrape_all_books.
  destruct (fetch site web "/") as [h ev].
  destruct (negb (truthy_opt h)); [constructor |].
  pose proof (scrape_categories_inv fuel cap (parse_categories site (soup (body h)))) as H.
  destruct (scrape_categories site soup web fuel cap _) as [cs' tr]; simpl in *.
  apply H.
  eapply Forall_impl; [| apply parse_categories_empty].
  intros c Hc; rewrite Hc; constructor.
Qed.

End Invariant.

(* ------------------------------------------------------------------ *)
(** ** What [parse_book_details] changes *)


Lemma upc_row_step_fields : forall b row,
  summary (upc_row_step b row) = summary b
  /\ (upc_row_step b row).(description) = b.(description).
Proof.
  intros b [[h |] [t |]]; unfold upc_row_step; simpl; try (split; reflexivity).
  destruct (String.eqb (Py.strip h) "UPC"); split; reflexivity.
Qed.

Lemma fold_upc_row_step_fields : forall rows b,
  summary (fold_left upc_row_step rows b) = summary b
  /\ (fold_left upc_row_step rows b).(description) = b.(description).
Proof.
  induction rows as [| r rs IH]; intros b; simpl; [split; reflexivity |].
  destruct (IH (upc_row_step b r)) as [H1 H2].
  destruct (upc_row_step_fields b r) as [H3 H4].
  split; congruence.
Qed.

Lemma parse_book_details_summary : forall d b,
  summary (parse_book_details d b) = summary b.
Proof.
  intros d b; unfold parse_book_details.
  destruct (doc_description d) as [t |]; destruct (doc_info_table d) as [rows |];
    try reflexivity; rewrite (proj1 (fold_upc_row_step_fields rows _)); reflexivity.
Qed.

Lemma parse_book_details_rating : forall d b,
  (parse_book_details d b).(rating) = b.(rating).
Proof.
  intros d b; pose proof (parse_book_details_summary d b) as H.
  unfold summary in H; congruence.
Qed.

(* ------------------------------------------------------------------ *)
(** ** Ratings *)

Lemma rating_map_vocabulary : forall w r,
  rating_map w = Some r <->
  In (w, r) [("One", 1); ("Two", 2); ("Three", 3); ("Four", 4); ("Five", 5)]%Z.
Proof.
  intros w r; unfold rating_map; split.
  - destruct (String.eqb_spec w "One"); [intros [= <-]; subst; simpl; auto |].
    destruct (String.eqb_spec w "Two"); [intros [= <-]; subst; simpl; auto |].
    destruct (String.eqb_spec w "Three"); [intros [= <-]; subst; simpl; auto |].
    destruct (String.eqb_spec w "Four"); [intros [= <-]; subst; simpl; auto |].
    destruct (String.eqb_spec w "Five"); [intros [= <-]; subst; simpl; auto 6 |].
    discriminate.
  - simpl; intros [H | [H | [H | [H | [H | []]]]]]; injection H as <- <-; reflexivity.
Qed.

Lemma rating_map_range : forall w r, rating_map w = Some r -> (1 <= r <= 5)%Z.
Proof.
  intros w r H; apply rating_map_vocabulary in H; simpl in H.
  destruct H as [H | [H | [H | [H | [H | []]]]]]; injection H as _ <-; lia.
Qed.

Lemma first_rating_range : forall classes, (0 <= first_rating classes <= 5)%Z.
Proof.
  induction classes as [| c cs IH]; simpl; [lia |].
  destruct (rating_map c) as [r |] eqn:E; [apply rating_map_range in E; lia | exact IH].
Qed.

Lemma first_rating_none : forall classes,
  (forall w, In w classes -> rating_map w = None) -> first_rating classes = 0%Z.
Proof.
  induction classes as [| c cs IH]; intros H; simpl; [reflexivity |].
  rewrite (H c (or_introl eq_refl)); apply IH; intros w Hw; apply H; right; exact Hw.
Qed.

Lemma first_rating_unique : forall classes w r,
  In w classes -> rating_map w = Some r ->
  (forall w', In w' classes -> rating_map w' <> None -> w' = w) ->
  first_rating classes = r.
Proof.
  induction classes as [| c cs IH]; intros w r Hin Hw Huniq; [destruct Hin |]; simpl.
  destruct (rating_map c) as [r' |] eqn:E.
  - assert (c = w) as -> by (apply Huniq; [left; reflexivity | rewrite E; discriminate]).
    congruence.
  - destruct Hin as [-> | Hin]; [congruence |].
    apply (IH w r Hin Hw); intros w' Hw' Hn; apply Huniq; [right; exact Hw' | exact Hn].
Qed.

(** C5.  [_extract_rating] returns 0 without a [p.star-rating] element and
    when its classes contain none of the five words of [rating_map] (so for
    any other word, e.g. "Zero" or "three"); when the classes contain one
    word of the vocabulary it returns that word's value 1..5; it is a total
    function with values in 0..5, and every book of every category that
    [scrape_all_books] returns has a rating in 0..5. *)
Theorem extract_rating_closed_vocabulary :
  (forall element, element.(it_rating) = None -> _extract_rating element = 0%Z)
  /\ (forall element classes, element.(it_rating) = Some classes ->
        (forall w, In w classes -> rating_map w = None) -> _extract_rating element = 0%Z)
  /\ (forall element classes w r, element.(it_rating) = Some classes ->
        In w classes ->
        In (w, r) [("One", 1); ("Two", 2); ("Three", 3); ("Four", 4); ("Five", 5)]%Z ->
        (forall w', In w' classes -> rating_map w' <> None -> w' = w) ->
        _extract_rating element = r)
  /\ (forall element, (0 <= _extract_rating element <= 5)%Z)
  /\ (forall site soup web fuel cap,
        Forall (fun c => Forall (fun b => 0 <= b.(rating) <= 5)%Z c.(books))
               (fst (scrape_all_books site soup web fuel cap))).
Proof.
  split; [| split; [| split; [| split]]].
  - intros element H; unfold _extract_rating; rewrite H; reflexivity.
  - intros element classes H Hn; unfold _extract_rating; rewrite H.
    apply first_rating_none; exact Hn.
  - intros element classes w r H Hin Hv Hu; unfold _extract_rating; rewrite H.
    apply rating_map_vocabulary in Hv; apply (first_rating_unique classes w r Hin Hv Hu).
  - intros element; unfold _extract_rating.
    destruct (it_rating element); [apply first_rating_range | lia].
  - intros site soup web fuel cap; apply scrape_all_books_inv.
    + intros d b Hb; rewrite parse_book_details_rating; exact Hb.
    + intros d name; unfold parse_books_list.
      apply Forall_forall; intros b Hb; apply in_map_iff in Hb as [e [<- _]].
      simpl; unfold _extract_rating; destruct (it_rating e); [apply first_rating_range | lia].
Qed.

(* ------------------------------------------------------------------ *)
(** ** Prices: the first match of [£(\d+\.\d+)] *)

Open Scope list_scope.



Lemma span_digits_spec : forall s d r,
  span_digits s = (d, r) ->
  s = d ++ r /\ Forall (fun c => isdigit c = true) d /\ digit_free_head r.
Proof.
  induction s as [| c s IH]; intros d r H; simpl in H.
  - injection H as <- <-; repeat split; constructor.
  - destruct (isdigit c) eqn:Ec.
    + destruct (span_digits s) as [d' r'] eqn:E; injection H as <- <-.
      destruct (IH d' r' eq_refl) as [-> [Hd Hr]].
      repeat split; auto.
    + injection H as <- <-; repeat split; simpl; auto.
Qed.

Lemma span_digits_unique : forall d r,
  Forall (fun c => isdigit c = true) d -> digit_free_head r ->
  span_digits (d ++ r) = (d, r).
Proof.
  induction d as [| c d IH]; intros r Hd Hr; simpl.
  - destruct r as [| c r]; simpl in *; [reflexivity | rewrite Hr; reflexivity].
  - inversion Hd as [| ? ? Hc Hd']; subst; rewrite Hc, (IH r Hd' Hr); reflexivity.
Qed.

Lemma dot_not_digit : isdigit dot = false.
Proof. reflexivity. Qed.

Lemma match_here_iff : forall s d1 d2,
  match_here s = Some (d1, d2) <-> matches_here s d1 d2.
Proof.
  intros s d1 d2; split.
  - destruct s as [| c r]; simpl; [discriminate |].
    destruct (Z.eqb_spec c pound) as [-> | _]; [| discriminate].
    destruct (span_digits r) as [e1 r1] eqn:E1.
    destruct e1 as [| x1 e1]; [discriminate |].
    destruct r1 as [| c2 r2]; [discriminate |].
    destruct (Z.eqb_spec c2 dot) as [-> | _]; [| discriminate].
    destruct (span_digits r2) as [e2 rest] eqn:E2.
    destruct e2 as [| x2 e2]; [discriminate |].
    intros H; inversion H; subst; clear H.
    apply span_digits_spec in E1 as [-> [Hd1 _]].
    apply span_digits_spec in E2 as [-> [Hd2 Hrest]].
    exists rest; split; [reflexivity |]; split; [discriminate |].
    split; [discriminate | auto].
  - intros [rest [-> [Hn1 [Hn2 [Hd1 [Hd2 Hrest]]]]]]; simpl.
    rewrite (span_digits_unique d1 (dot :: d2 ++ rest) Hd1 dot_not_digit).
    destruct d1 as [| x1 e1]; [contradiction |]; simpl.
    rewrite (span_digits_unique d2 rest Hd2 Hrest).
    destruct d2 as [| x2 e2]; [contradiction | reflexivity].
Qed.

Lemma re_search_none : forall s,
  (forall i d1 d2, ~ matches_at s i d1 d2) -> re_search s = None.
Proof.
  induction s as [| c r IH]; intros H; cbn [re_search]; [reflexivity |].
  destruct (match_here (c :: r)) as [[d1 d2] |] eqn:E.
  - exfalso; apply (H 0%nat d1 d2); apply match_here_iff; exact E.
  - apply IH; intros i d1 d2 Hm; apply (H (S i) d1 d2); exact Hm.
Qed.

Lemma re_search_first : forall s i d1 d2,
  matches_at s i d1 d2 ->
  (forall j e1 e2, (j < i)%nat -> ~ matches_at s j e1 e2) ->
  re_search s = Some (d1, d2).
Proof.
  induction s as [| c r IH]; intros i d1 d2 Hm Hfirst.
  - unfold matches_at in Hm; rewrite skipn_nil in Hm.
    destruct Hm as [rest [H _]]; discriminate H.
  - cbn [re_search]. destruct i as [| i].
    + apply match_here_iff in Hm; cbn [skipn] in Hm; rewrite Hm; reflexivity.
    + destruct (match_here (c :: r)) as [[e1 e2] |] eqn:E.
      * exfalso; apply (Hfirst 0%nat e1 e2); [lia |].
        apply match_here_iff; exact E.
      * apply (IH i d1 d2 Hm).
        intros j e1 e2 Hj Hm'; apply (Hfirst (S j) e1 e2); [lia | exact Hm'].
Qed.

(** C6.  [_extract_price] returns 0.0 when there is no [p.price_color]
    element and when the price text ([text.strip()]) contains no match of
    [£(\d+\.\d+)]; otherwise it returns [float()] of the first (leftmost)
    match's group: the double nearest to its decimal value, [inf] past the
    largest double.  It is a total function: no input makes it raise. *)
Theorem extract_price_first_match :
  (forall element, element.(it_price) = None -> _extract_price element = float_zero)
  /\ (forall element text, element.(it_price) = Some text ->
        (forall i d1 d2, ~ matches_at (Py.strip_cp text) i d1 d2) ->
        _extract_price element = float_zero)
  /\ (forall element text i d1 d2, element.(it_price) = Some text ->
        matches_at (Py.strip_cp text) i d1 d2 ->
        (forall j e1 e2, (j < i)%nat -> ~ matches_at (Py.strip_cp text) j e1 e2) ->
        _extract_price element = float_of_group (d1, d2)).
Proof.
  split; [| split].
  - intros element H; unfold _extract_price; rewrite H; reflexivity.
  - intros element text H Hn; unfold _extract_price; rewrite H.
    rewrite (re_search_none _ Hn); reflexivity.
  - intros element text i d1 d2 H Hm Hf; unfold _extract_price; rewrite H.
    rewrite (re_search_first _ i d1 d2 Hm Hf); reflexivity.
Qed.

(** The values of the end-to-end scenario, "£10.00" (5 * 2^1) and "£51.77"
    (the double nearest to 51.77); a text without [£] gives 0.0; and
    "£١.٥ £2.25" (Arabic-Indic digits first) gives 1.5 (3 * 2^-1). *)
Example extract_price_examples :
  _extract_price (mkItem None None None (Some [163; 49; 48; 46; 48; 48]%Z) None)
    = PFinite 5 1
  /\ _extract_price (mkItem None None None (Some [32; 163; 53; 49; 46; 55; 55; 10]%Z) None)
     = PFinite 7285979772155331 (-47)
  /\ _extract_price (mkItem None None None (Some [36; 49; 48; 46; 48; 48]%Z) None)
     = float_zero
  /\ _extract_price (mkItem None None None
       (Some [163; 1633; 46; 1637; 32; 163; 50; 46; 50; 53]%Z) None) = PFinite 3 (-1).
Proof. repeat split; vm_compute; reflexivity. Qed.

(* ------------------------------------------------------------------ *)
(** ** UPC rows of the product information table *)


Lemma upc_row_step_other : forall b row,
  is_upc_row row = false \/ row.(row_td) = None ->
  upc_row_step b row = b.
Proof.
  intros b [[h |] [t |]]; unfold upc_row_step, is_upc_row; simpl;
    intros [H | H]; try reflexivity; try discriminate.
  rewrite H; reflexivity.
Qed.

Lemma fold_upc_row_step_other : forall rows b,
  Forall (fun row => is_upc_row row = false \/ row.(row_td) = None) rows ->
  fold_left upc_row_step rows b = b.
Proof.
  induction rows as [| r rs IH]; intros b H; simpl; [reflexivity |].
  inversion H as [| ? ? Hr Hrs]; subst.
  rewrite (upc_row_step_other b r Hr); apply IH; exact Hrs.
Qed.

Lemma parse_book_details_upc : forall d b,
  (parse_book_details d b).(upc)
  = match d.(doc_info_table) with
    | Some rows => (fold_left upc_row_step rows b).(upc)
    | None => b.(upc)
    end.
Proof.
  intros d b; unfold parse_book_details.
  destruct (doc_info_table d) as [rows |]; destruct (doc_description d) as [t |];
    try reflexivity.
  (* setting the description first does not change which upc the rows leave *)
  assert (Hgen : forall rows b1 b2, b1.(upc) = b2.(upc) ->
            (fold_left upc_row_step rows b1).(upc) = (fold_left upc_row_step rows b2).(upc)).
  { induction rows0 as [| r rs IH]; intros b1 b2 Heq; simpl; [exact Heq |].
    apply IH. destruct r as [[h |] [x |]]; unfold upc_row_step; simpl; try exact Heq.
    destruct (String.eqb (Py.strip h) "UPC"); [reflexivity | exact Heq]. }
  apply Hgen; reflexivity.
Qed.

(** C9.  When no row of the detail page's information table has a header
    cell ["UPC"], [parse_book_details] leaves [upc] as it was (unset for a
    summary from [parse_books_list]) and leaves title, price, rating,
    availability, category, url and image_url unchanged.  A header cell is
    the key ["UPC"] when its text, stripped of surrounding whitespace, is
    exactly ["UPC"]: that is the comparison the row loop makes. *)
Theorem parse_book_details_without_upc_row : forall d b,
  (forall rows, d.(doc_info_table) = Some rows ->
     forallb (fun row => negb (is_upc_row row)) rows = true) ->
  (parse_book_details d b).(upc) = b.(upc)
  /\ summary (parse_book_details d b) = summary b.
Proof.
  intros d b H; split; [| apply parse_book_details_summary].
  rewrite parse_book_details_upc.
  destruct (doc_info_table d) as [rows |]; [| reflexivity].
  rewrite fold_upc_row_step_other; [reflexivity |].
  specialize (H rows eq_refl).
  apply Forall_forall; intros row Hin; left.
  apply forallb_forall with (x := row) in H; [| exact Hin].
  destruct (is_upc_row row); [discriminate | reflexivity].
Qed.

(** C10 (as amended).  The row loop assigns on every row that has a header
    cell ["UPC"] and a data cell, so the last such row wins: its stripped
    data cell is the book's [upc]. *)
Theorem parse_book_details_last_upc_row : forall d b rows pre row post t,
  d.(doc_info_table) = Some rows ->
  rows = pre ++ row :: post ->
  is_upc_row row = true -> row.(row_td) = Some t ->
  Forall (fun r => is_upc_row r = false \/ r.(row_td) = None) post ->
  (parse_book_details d b).(upc) = Some (Py.strip t).
Proof.
  intros d b rows pre row post t Hd -> Hrow Ht Hpost.
  rewrite parse_book_details_upc, Hd, fold_left_app; simpl.
  rewrite fold_upc_row_step_other by exact Hpost.
  destruct row as [[h |] td]; unfold is_upc_row in Hrow; simpl in *; [| discriminate].
  unfold upc_row_step; simpl; rewrite Ht, Hrow; reflexivity.
Qed.

(** C10 (the claim as stated fails).  Two rows have the header "UPC"; the
    last one has no data cell, so it is skipped and the book's upc is the
    first row's value, not a value of the last such row. *)
Lemma last_upc_row_without_value :
  let rows := [mkRow (Some "UPC") (Some "a897fe39b1053632");
               mkRow (Some "UPC") None] in
  let d := mkDocument None [] None (Some rows) None in
  let b := mkBook "T" float_zero 0 "In stock" "Poetry" "u" None None "i" in
  List.length (filter is_upc_row rows) = 2%nat
  /\ (parse_book_details d b).(upc) = Some "a897fe39b1053632"
  /\ (parse_book_details d b).(upc) <> option_map Py.strip (row_td (last rows (mkRow None None))).
Proof.
  vm_compute; split; [reflexivity | split; [reflexivity | discriminate]].
Qed.


(** Witness for [parse_book_details_without_upc_row]. *)
Lemma parse_book_details_without_upc_row_witness :
  let d := mkDocument None [] (Some " It's hard to imagine a world without A Light in the Attic. ")
             (Some [mkRow (Some "Product Type") (Some "Books");
                    mkRow (Some " Price (excl. tax) ") (Some "51.77")]) None in
  (forall rows, d.(doc_info_table) = Some rows ->
     forallb (fun row => negb (is_upc_row row)) rows = true)
  /\ (parse_book_details d sample_summary).(upc) = None
  /\ summary (parse_book_details d sample_summary) = summary sample_summary.
Proof.
  intros d.
  assert (H : forall rows, d.(doc_info_table) = Some rows ->
            forallb (fun row => negb (is_upc_row row)) rows = true)
    by (intros rows Hr; injection Hr as <-; vm_compute; reflexivity).
  split; [exact H |].
  exact (parse_book_details_without_upc_row d sample_summary H).
Defined.

(** Witness for [parse_book_details_last_upc_row]. *)
Lemma parse_book_details_last_upc_row_witness :
  let r1 := mkRow (Some "UPC") (Some "first") in
  let r2 := mkRow (Some "Availability") (Some "In stock") in
  let r3 := mkRow (Some " UPC ") (Some " a897fe39b1053632 ") in
  let d := mkDocument None [] None (Some [r1; r2; r3]) None in
  is_upc_row r3 = true /\ r3.(row_td) = Some " a897fe39b1053632 "
  /\ (parse_book_details d sample_summary).(upc) = Some "a897fe39b1053632".
Proof.
  intros r1 r2 r3 d.
  split; [reflexivity | split; [reflexivity |]].
  exact (parse_book_details_last_upc_row d sample_summary [r1; r2; r3] [r1; r2] r3 []
           " a897fe39b1053632 " eq_refl eq_refl eq_refl eq_refl (Forall_nil _)).
Defined.

(* ------------------------------------------------------------------ *)
(** ** One listing page of the orchestrator *)


Section OrchestratorProps.
Variables (site : string) (soup : string -> Document) (web : string -> option string).

Lemma process_books_retained : forall cap bs count acc tr,
  process_books site soup web cap bs count acc tr
  = (acc ++ map (enrich site soup web) (firstn (retained cap count (List.length bs)) bs),
     (count + Z.of_nat (retained cap count (List.length bs)))%Z,
     tr ++ flat_map (detail_events site web) (firstn (retained cap count (List.length bs)) bs)).
Proof.
  intros cap bs; induction bs as [| b bs IH]; intros count acc tr.
  - unfold retained; destruct cap; simpl; rewrite !app_nil_r, Z.add_0_r; reflexivity.
  - cbn [process_books]; unfold retained.
    destruct cap as [m |].
    + cbn [below_cap]; destruct (Z.ltb_spec count m) as [Hlt | Hge]; simpl.
      * rewrite IH; unfold retained.
        replace (Z.to_nat (m - count)) with (S (Z.to_nat (m - (count + 1)))) by lia.
        simpl; unfold enrich at 1, detail_events at 1.
        rewrite <- !app_assoc; simpl.
        match goal with |- (_, ?x, _) = (_, ?y, _) => replace x with y by lia end.
        reflexivity.
      * replace (Z.to_nat (m - count)) with 0%nat by lia.
        simpl; rewrite !app_nil_r, Z.add_0_r; reflexivity.
    + simpl; rewrite IH; unfold retained; simpl.
      unfold enrich at 1, detail_events at 1; rewrite <- !app_assoc; simpl.
      match goal with |- (_, ?x, _) = (_, ?y, _) => replace x with y by lia end.
      reflexivity.
Qed.

Lemma page_loop_page : forall fuel cap name cur html count acc tr,
  truthy_opt html = true -> below_cap cap count = true ->
  page_loop site soup web (S fuel) cap name cur html count acc tr
  = let d := soup (body html) in
    let bs := parse_books_list site d name in
    let k := retained cap count (List.length bs) in
    let acc' := acc ++ map (enrich site soup web) (firstn k bs) in
    let count' := (count + Z.of_nat k)%Z in
    let tr' := tr ++ flat_map (detail_events site web) (firstn k bs) in
    match check_next_page d with
    | Some np =>
        if below_cap cap count'
        then page_loop site soup web fuel cap name (resolve_next cur np)
               (fst (fetch site web (resolve_next cur np))) count' acc'
               (tr' ++ snd (fetch site web (resolve_next cur np)))
        else (acc', tr')
    | None => (acc', tr')
    end.
Proof.
  intros fuel cap name cur html count acc tr Hh Hc.
  cbn [page_loop]; rewrite Hh, Hc; simpl.
  rewrite process_books_retained.
  destruct (check_next_page (soup (body html))); reflexivity.
Qed.

Lemma page_loop_stop : forall fuel cap name cur html count acc tr,
  truthy_opt html && below_cap cap count = false ->
  page_loop site soup web fuel cap name cur html count acc tr = (acc, tr).
Proof.
  intros [| fuel] cap name cur html count acc tr H; cbn [page_loop];
    [reflexivity | rewrite H; reflexivity].
Qed.

End OrchestratorProps.

(* ------------------------------------------------------------------ *)
(** ** Sequential traces and caps *)


Lemma sequential_app : forall t1 t2,
  sequential t1 -> sequential t2 -> sequential (t1 ++ t2).
Proof.
  intros t1 t2 H1 H2; induction H1; simpl; [exact H2 | constructor; exact IHsequential].
Qed.

Lemma sequential_fetch : forall site web u, sequential (snd (fetch site web u)).
Proof. intros; repeat constructor. Qed.

Lemma sequential_max_in_flight : forall tr, sequential tr -> (max_in_flight tr <= 1)%nat.
Proof.
  unfold max_in_flight; intros tr H; induction H; simpl; [lia |].
  destruct (max_in_flight_from 0 tr) as [| [| m]]; simpl in *; lia.
Qed.

Section OrchestratorTraces.
Variables (site : string) (soup : string -> Document) (web : string -> option string).

Lemma sequential_detail_events : forall bs,
  sequential (flat_map (detail_events site web) bs).
Proof.
  induction bs; simpl; constructor; assumption.
Qed.

Lemma page_loop_sequential : forall fuel cap name cur html count acc tr,
  sequential tr ->
  sequential (snd (page_loop site soup web fuel cap name cur html count acc tr)).
Proof.
  induction fuel as [| fuel IH]; intros cap name cur html count acc tr Htr; [exact Htr |].
  destruct (truthy_opt html && below_cap cap count) eqn:E.
  - apply andb_true_iff in E as [E1 E2].
    rewrite page_loop_page by assumption; simpl.
    assert (H1 : sequential
                   (tr ++ flat_map (detail_events site web)
                            (firstn (retained cap count
                               (List.length (parse_books_list site (soup (body html)) name)))
                               (parse_books_list site (soup (body html)) name))))
      by (apply sequential_app; [exact Htr | apply sequential_detail_events]).
    destruct (check_next_page _) as [np |]; [| exact H1].
    match goal with |- context [if below_cap ?c ?n then _ else _] =>
      destruct (below_cap c n) end; [| exact H1].
    apply IH, sequential_app; [exact H1 | repeat constructor].
  - rewrite page_loop_stop by exact E; exact Htr.
Qed.

Lemma scrape_all_books_sequential : forall fuel cap,
  sequential (snd (scrape_all_books site soup web fuel cap)).
Proof.
  intros fuel cap; unfold scrape_all_books.
  pose proof (sequential_fetch site web "/") as H0.
  destruct (fetch site web "/") as [h ev]; simpl in H0.
  destruct (negb (truthy_opt h)); [exact H0 |].
  assert (Hcs : forall cs, sequential (snd (scrape_categories site soup web fuel cap cs))).
  { induction cs as [| c cs IH]; simpl; [constructor |].
    unfold scrape_category.
    pose proof (sequential_fetch site web (cat_url c)) as Hc.
    destruct (fetch site web (cat_url c)) as [hc evc]; simpl in Hc.
    destruct (scrape_categories site soup web fuel cap cs) as [cs' tr]; simpl in IH.
    destruct (negb (truthy_opt hc)); simpl; [apply sequential_app; assumption |].
    pose proof (page_loop_sequential fuel cap (cat_name c) (cat_url c) hc 0 (books c) evc Hc)
      as Hl.
    destruct (page_loop _ _ _ _ _ _ _ _ _ _ _) as [bs trl]; simpl in *.
    apply sequential_app; assumption. }
  specialize (Hcs (parse_categories site (soup (body h)))).
  destruct (scrape_categories _ _ _ _ _ _) as [cs' tr]; simpl in *.
  apply sequential_app; assumption.
Qed.

Lemma page_loop_extends : forall fuel cap name cur html count acc tr,
  (exists extra, fst (page_loop site soup web fuel cap name cur html count acc tr) = acc ++ extra)
  /\ (exists more, snd (page_loop site soup web fuel cap name cur html count acc tr) = tr ++ more).
Proof.
  induction fuel as [| fuel IH]; intros cap name cur html count acc tr;
    [split; exists []; rewrite app_nil_r; reflexivity |].
  destruct (truthy_opt html && below_cap cap count) eqn:E.
  - apply andb_true_iff in E as [E1 E2].
    rewrite page_loop_page by assumption; simpl.
    destruct (check_next_page _) as [np |];
      [match goal with |- context [if below_cap ?c ?n then _ else _] =>
         destruct (below_cap c n) end |].
    + edestruct IH as [[x Hx] [y Hy]]; rewrite Hx, Hy; rewrite <- !app_assoc.
      split; eexists; reflexivity.
    + split; eexists; reflexivity.
    + split; eexists; reflexivity.
  - rewrite page_loop_stop by exact E; split; exists []; rewrite app_nil_r; reflexivity.
Qed.

Lemma enrich_url : forall b, (enrich site soup web b).(url) = b.(url).
Proof.
  intros b; unfold enrich.
  destruct (truthy_opt _); [| reflexivity].
  pose proof (parse_book_details_summary (soup (body (fst (fetch site web (url b))))) b) as H.
  unfold summary in H; congruence.
Qed.

End OrchestratorTraces.

Section CapProps.
Variables (site : string) (soup : string -> Document) (web : string -> option string).

Lemma flat_map_detail_last : forall l x,
  flat_map (detail_events site web) (l ++ [x])
  = flat_map (detail_events site web) l ++ detail_events site web x.
Proof.
  intros l x; rewrite flat_map_app; cbn [flat_map]; rewrite app_nil_r; reflexivity.
Qed.

(** Under a cap [n], a page loop entered with [count] books adds books only
    while below [n], and when it ends with exactly [n] books, having added
    some, its last request was the detail fetch of the last book. *)
Lemma page_loop_cap : forall fuel n name cur html count acc tr,
  Z.of_nat (List.length acc) = count ->
  let r := page_loop site soup web fuel (Some n) name cur html count acc tr in
  (Z.of_nat (List.length (fst r)) <= Z.max count n)%Z
  /\ (Z.of_nat (List.length (fst r)) = n -> (List.length acc < List.length (fst r))%nat ->
      exists pre, snd r = pre ++ detail_events site web (last (fst r) sample_summary)).
Proof.
  induction fuel as [| fuel IH]; intros n name cur html count acc tr Hacc;
    cbv zeta.
  - simpl; split; [lia | intros _ H; lia].
  - destruct (truthy_opt html && below_cap (Some n) count) eqn:E.
    2: { rewrite page_loop_stop by exact E; simpl; split; [lia | intros _ H; lia]. }
    apply andb_true_iff in E as [E1 E2]; simpl in E2; apply Z.ltb_lt in E2.
    rewrite page_loop_page by (try assumption; simpl; apply Z.ltb_lt; exact E2).
    cbv zeta.
    set (bs := parse_books_list site (soup (body html)) name).
    set (k := retained (Some n) count (List.length bs)).
    assert (Hk : (Z.of_nat k <= n - count)%Z /\ (k <= List.length bs)%nat)
      by (unfold k, retained; lia).
    assert (Hlen1 : Z.of_nat (List.length (acc ++ map (enrich site soup web) (firstn k bs)))
                    = (count + Z.of_nat k)%Z)
      by (rewrite length_app, length_map, length_firstn; lia).
    destruct (check_next_page (soup (body html))) as [np |].
    + cbn [below_cap]; destruct (Z.ltb_spec (count + Z.of_nat k) n) as [Hlt | Hge].
      * destruct (IH n name (resolve_next cur np)
                    (fst (fetch site web (resolve_next cur np)))
                    (count + Z.of_nat k)%Z _
                    ((tr ++ flat_map (detail_events site web) (firstn k bs))
                     ++ snd (fetch site web (resolve_next cur np))) Hlen1)
          as [IH1 IH2].
        pose proof (proj1 (page_loop_extends site soup web fuel (Some n) name
                      (resolve_next cur np) (fst (fetch site web (resolve_next cur np)))
                      (count + Z.of_nat k)%Z
                      (acc ++ map (enrich site soup web) (firstn k bs))
                      ((tr ++ flat_map (detail_events site web) (firstn k bs))
                       ++ snd (fetch site web (resolve_next cur np))))) as [extra Hx].
        split; [lia |].
        intros Hn Hgt.
        apply IH2; [exact Hn |].
        rewrite Hx in Hn |- *; rewrite !length_app in *.
        destruct extra as [| e extra]; simpl in *; [| lia].
        exfalso; rewrite Nat.add_0_r in Hn; lia.
      * simpl; split; [lia |].
        intros Hn Hgt.
        assert (Hk0 : (0 < k)%nat) by (rewrite length_app, length_map, length_firstn in Hgt; lia).
        assert (Hne : firstn k bs <> []).
        { intros H0; apply (f_equal (@List.length Book)) in H0.
          rewrite length_firstn in H0; simpl in H0; lia. }
        destruct (exists_last Hne) as [l [x Hlx]]; rewrite Hlx.
        exists (tr ++ flat_map (detail_events site web) l).
        rewrite map_app; cbn [map]; rewrite app_assoc, last_last, flat_map_detail_last, app_assoc.
        unfold detail_events; rewrite enrich_url; reflexivity.
    + simpl; split; [lia |].
      intros Hn Hgt.
      assert (Hne : firstn k bs <> []).
      { intros H0; rewrite H0 in Hgt; simpl in Hgt; rewrite app_nil_r in Hgt; lia. }
      destruct (exists_last Hne) as [l [x Hlx]]; rewrite Hlx.
      exists (tr ++ flat_map (detail_events site web) l).
      rewrite map_app; cbn [map]; rewrite app_assoc, last_last, flat_map_detail_last, app_assoc.
      unfold detail_events; rewrite enrich_url; reflexivity.
Qed.

End CapProps.


(* ------------------------------------------------------------------ *)
(** ** Caps and pagination (C7) *)

Lemma page_loop_no_cap : forall site soup web fuel name cur html count acc tr,
  truthy_opt html = true ->
  page_loop site soup web (S fuel) None name cur html count acc tr
  = let d := soup (body html) in
    let bs := parse_books_list site d name in
    match check_next_page d with
    | Some np =>
        page_loop site soup web fuel None name (resolve_next cur np)
          (fst (fetch site web (resolve_next cur np)))
          (count + Z.of_nat (List.length bs))%Z
          (acc ++ map (enrich site soup web) bs)
          ((tr ++ flat_map (detail_events site web) bs)
           ++ snd (fetch site web (resolve_next cur np)))
    | None => (acc ++ map (enrich site soup web) bs,
               tr ++ flat_map (detail_events site web) bs)
    end.
Proof.
  intros site soup web fuel name cur html count acc tr Hh.
  rewrite page_loop_page by (try exact Hh; reflexivity).
  cbv zeta; unfold retained; rewrite firstn_all; reflexivity.
Qed.

Lemma scrape_category_cap : forall site soup web fuel n c,
  (0 <= n)%Z -> c.(books) = [] ->
  let r := scrape_category site soup web fuel (Some n) c in
  (Z.of_nat (List.length (fst r).(books)) <= n)%Z
  /\ (n = 0%Z -> snd r = snd (fetch site web c.(cat_url)))
  /\ (Z.of_nat (List.length (fst r).(books)) = n -> (0 < n)%Z ->
      exists pre, snd r = pre ++ detail_events site web (last (fst r).(books) sample_summary)).
Proof.
  intros site soup web fuel n c Hn Hc; cbv zeta; unfold scrape_category.
  destruct (fetch site web (cat_url c)) as [h ev] eqn:Ef; simpl.
  destruct (negb (truthy_opt h)); simpl.
  - rewrite Hc; simpl; split; [lia | split; [reflexivity | intros H1 H2; lia]].
  - pose proof (page_loop_cap site soup web fuel n (cat_name c) (cat_url c) h 0%Z
                  (books c) ev) as Hl.
    rewrite Hc in Hl |- *; specialize (Hl eq_refl); cbv zeta in Hl.
    destruct (page_loop site soup web fuel (Some n) (cat_name c) (cat_url c) h 0%Z [] ev)
      as [bs tr'] eqn:Epl.
    simpl in *; destruct Hl as [Hl1 Hl2].
    split; [lia | split].
    + intros ->; destruct fuel as [| f].
      * simpl in Epl; injection Epl as _ <-; reflexivity.
      * rewrite page_loop_stop in Epl by (apply andb_false_iff; right; reflexivity).
        injection Epl as _ <-; reflexivity.
    + intros H1 H2; apply Hl2; [exact H1 | simpl; lia].
Qed.

(** C7.  With a cap [n >= 0], every category [scrape_all_books] returns
    holds at most [n] books, and within a category: with [n = 0] only the
    category's own first page is fetched; once [n > 0] books are collected,
    the last request of the category is the detail fetch of its last book,
    so no further listing page is fetched.  With no cap, a fetched page is
    processed in full and the loop goes on to the page its next-page link
    names, and stops at a page without one (a page whose fetch failed has
    none and ends the loop). *)
Theorem scrape_all_books_cap : forall site soup web fuel n,
  (0 <= n)%Z ->
  Forall (fun c => Z.of_nat (List.length c.(books)) <= n)%Z
         (fst (scrape_all_books site soup web fuel (Some n)))
  /\ (forall c, c.(books) = [] ->
      let r := scrape_category site soup web fuel (Some n) c in
      (n = 0%Z -> snd r = snd (fetch site web c.(cat_url)))
      /\ (Z.of_nat (List.length (fst r).(books)) = n -> (0 < n)%Z ->
          exists pre, snd r = pre ++ detail_events site web (last (fst r).(books) sample_summary)))
  /\ (forall name cur html count acc tr, truthy_opt html = true ->
      page_loop site soup web (S fuel) None name cur html count acc tr
      = let d := soup (body html) in
        let bs := parse_books_list site d name in
        match check_next_page d with
        | Some np =>
            page_loop site soup web fuel None name (resolve_next cur np)
              (fst (fetch site web (resolve_next cur np)))
              (count + Z.of_nat (List.length bs))%Z
              (acc ++ map (enrich site soup web) bs)
              ((tr ++ flat_map (detail_events site web) bs)
               ++ snd (fetch site web (resolve_next cur np)))
        | None => (acc ++ map (enrich site soup web) bs,
                   tr ++ flat_map (detail_events site web) bs)
        end)
  /\ (forall name cur html count acc tr, truthy_opt html = false ->
      page_loop site soup web fuel None name cur html count acc tr = (acc, tr)).
Proof.
  intros site soup web fuel n Hn.
  split; [| split; [| split]].
  - unfold scrape_all_books.
    destruct (fetch site web "/") as [h ev].
    destruct (negb (truthy_opt h)); [constructor |].
    pose proof (parse_categories_empty site (soup (body h))) as He.
    induction (parse_categories site (soup (body h))) as [| c cs IH]; simpl; [constructor |].
    inversion He as [| ? ? Hc Hcs]; subst.
    pose proof (proj1 (scrape_category_cap site soup web fuel n c Hn Hc)) as H1.
    destruct (scrape_category site soup web fuel (Some n) c) as [c' evc].
    specialize (IH Hcs).
    destruct (scrape_categories site soup web fuel (Some n) cs) as [cs' trs].
    simpl in *; constructor; assumption.
  - intros c Hc; apply (scrape_category_cap site soup web fuel n c Hn Hc).
  - intros; apply page_loop_no_cap; assumption.
  - intros name cur html count acc tr Hh; apply page_loop_stop; rewrite Hh; reflexivity.
Qed.

(** Witness for [scrape_all_books_cap]: the sample site with a cap of 2. *)
Lemma scrape_all_books_cap_witness :
  (0 <= 2)%Z
  /\ Forall (fun c => Z.of_nat (List.length c.(books)) <= 2)%Z
            (fst (scrape_all_books sample_base sample_soup sample_web 10 (Some 2%Z))).
Proof.
  split; [lia |].
  exact (proj1 (scrape_all_books_cap sample_base sample_soup sample_web 10 2%Z
                  ltac:(lia))).
Defined.

(* ------------------------------------------------------------------ *)
(** ** Detail fetches of a listing page (C4) *)

(** C4 (as amended).  The orchestrator makes its requests one at a time:
    in every run each [get] finishes before the next begins (at most one
    request in flight).  For a listing page it processes, the detail pages
    of the books it keeps are fetched one after another in the order the
    summaries appear on the page, and all of them before the request for
    the next listing page, if any. *)
Theorem detail_fetches_sequential :
  (forall site soup web fuel cap,
      sequential (snd (scrape_all_books site soup web fuel cap))
      /\ (max_in_flight (snd (scrape_all_books site soup web fuel cap)) <= 1)%nat)
  /\ (forall site soup web fuel cap name cur html count acc tr,
      truthy_opt html = true -> below_cap cap count = true ->
      let d := soup (body html) in
      let bs := parse_books_list site d name in
      let k := retained cap count (List.length bs) in
      exists rest,
        snd (page_loop site soup web (S fuel) cap name cur html count acc tr)
        = tr ++ flat_map (detail_events site web) (firstn k bs) ++ rest
        /\ (rest = []
            \/ exists np more, check_next_page d = Some np
               /\ rest = snd (fetch site web (resolve_next cur np)) ++ more)).
Proof.
  split.
  - intros site soup web fuel cap.
    pose proof (scrape_all_books_sequential site soup web fuel cap) as H.
    split; [exact H | apply sequential_max_in_flight; exact H].
  - intros site soup web fuel cap name cur html count acc tr Hh Hc; cbv zeta.
    rewrite page_loop_page by assumption; cbv zeta.
    destruct (check_next_page (soup (body html))) as [np |] eqn:En.
    + match goal with |- context [if below_cap ?c ?n then _ else _] =>
        destruct (below_cap c n) end.
      * match goal with |- context [page_loop _ _ _ ?f ?c ?nm ?u ?h ?n ?a ?t] =>
          destruct (proj2 (page_loop_extends site soup web f c nm u h n a t)) as [more Hm]
        end.
        exists (snd (fetch site web (resolve_next cur np)) ++ more).
        rewrite Hm, <- !app_assoc; split; [reflexivity |].
        right; exists np, more; split; reflexivity.
      * exists []; rewrite app_nil_r; split; [reflexivity | left; reflexivity].
    + exists []; rewrite app_nil_r; split; [reflexivity | left; reflexivity].
Qed.

(** C4 (the claim as stated fails).  On the sample site the first listing
    page has five books, yet no two requests, detail fetches included, are
    ever in flight together: there is no worker pool, the detail pages are
    fetched one by one. *)
Lemma detail_fetches_never_overlap :
  let run := scrape_all_books sample_base sample_soup sample_web 10 None in
  List.length (doc_product_pods page1_doc) = 5%nat
  /\ max_in_flight (snd run) = 1%nat
  /\ List.length (snd run) = 18%nat.
Proof. vm_compute; repeat split; reflexivity. Qed.

(* ------------------------------------------------------------------ *)
(** ** A failed detail fetch (C8) *)

(** C8.  A book whose detail page cannot be fetched ([get] returns [None]
    or an empty body) is appended as its summary: [enrich] returns it
    unchanged, and a summary has no upc and no description.  On every page
    each kept book is fetched exactly once (no retry) and appended once, in
    page order, and every other book's entry depends only on its own
    fetch; the count rises by one for it as for any other book, so the
    loop goes on to the following books and pages as usual. *)
Theorem failed_detail_keeps_summary : forall site soup web d name b,
  In b (parse_books_list site d name) ->
  truthy_opt (web (full_url (the_collector site) b.(url))) = false ->
  enrich site soup web b = b /\ b.(upc) = None /\ b.(description) = None
  /\ (forall cap bs count acc tr,
        process_books site soup web cap bs count acc tr
        = (acc ++ map (enrich site soup web) (firstn (retained cap count (List.length bs)) bs),
           (count + Z.of_nat (retained cap count (List.length bs)))%Z,
           tr ++ flat_map (detail_events site web)
                   (firstn (retained cap count (List.length bs)) bs))).
Proof.
  intros site soup web d name b Hin Hf.
  split; [| split; [| split]].
  - unfold enrich; simpl; rewrite Hf; reflexivity.
  - unfold parse_books_list in Hin; apply in_map_iff in Hin as [e [<- _]]; reflexivity.
  - unfold parse_books_list in Hin; apply in_map_iff in Hin as [e [<- _]]; reflexivity.
  - intros; apply process_books_retained.
Qed.


(** Witness for [failed_detail_keeps_summary]: "soumission" on the sample
    site, whose detail page fails. *)
Lemma failed_detail_keeps_summary_witness :
  In soumission (parse_books_list sample_base page1_doc "Poetry")
  /\ truthy_opt (sample_web (full_url (the_collector sample_base) soumission.(url))) = false
  /\ enrich sample_base sample_soup sample_web soumission = soumission.
Proof.
  assert (Hin : In soumission (parse_books_list sample_base page1_doc "Poetry"))
    by (simpl; right; right; left; reflexivity).
  assert (Hf : truthy_opt (sample_web (full_url (the_collector sample_base) soumission.(url)))
               = false) by (vm_compute; reflexivity).
  split; [exact Hin | split; [exact Hf |]].
  exact (proj1 (failed_detail_keeps_summary sample_base sample_soup sample_web page1_doc
                  "Poetry" soumission Hin Hf)).
Defined.

(** The whole sample run: the failed book keeps its place, its summary
    fields and no upc; the books around it are enriched. *)
Example sample_run_failed_detail :
  map (fun b => (b.(title), b.(upc)))
      (List.concat (map books (fst (scrape_all_books sample_base sample_soup sample_web 10 None))))
  = [("a-light-in-the-attic_1000", Some "a897fe39b1053632");
     ("tipping-the-velvet_999", Some "a897fe39b1053632");
     ("soumission_998", None);
     ("sharp-objects_997", Some "a897fe39b1053632");
     ("sapiens_996", Some "a897fe39b1053632");
     ("the-requiem-red_995", Some "a897fe39b1053632")].
Proof. vm_compute; reflexivity. Qed.

(* ================================================================== *)
(** * Further properties of the code *)

Open Scope string_scope.

(* ------------------------------------------------------------------ *)
(** ** [WebCollector.get]: the requested URL *)

Lemma lstrip_slash_head : forall u,
  Py.startswith (Py.lstrip_set ["/"%char] u) "/" = false.
Proof.
  induction u as [| a u IH]; [reflexivity |].
  cbn [Py.lstrip_set existsb]; rewrite orb_false_r.
  destruct (Ascii.eqb_spec a "/") as [_ | Hne]; [exact IH |].
  unfold Py.startswith; cbn [String.prefix].
  destruct (Ascii.ascii_dec "/" a) as [Heq | _]; [congruence | reflexivity].
Qed.

(** A path given to [get] with or without leading slashes names the same
    URL: the slashes are dropped, and the path is joined to [base_url] with
    exactly one ['/']. *)
Theorem full_url_leading_slashes : forall c u,
  Py.startswith u "http" = false ->
  full_url c (String "/" u) = full_url c u
  /\ exists p, full_url c u = c.(base_url) ++ "/" ++ p /\ Py.startswith p "/" = false.
Proof.
  intros c u Hu; unfold full_url; rewrite Hu; split.
  - reflexivity.
  - exists (Py.lstrip_set ["/"%char] u); split; [reflexivity | apply lstrip_slash_head].
Qed.

(** Witness for [full_url_leading_slashes]. *)
Lemma full_url_leading_slashes_witness :
  Py.startswith "/catalogue/index.html" "http" = false
  /\ full_url (init_collector "http://books.toscrape.com" 1) "//catalogue/index.html"
     = full_url (init_collector "http://books.toscrape.com" 1) "/catalogue/index.html".
Proof.
  assert (H : Py.startswith "/catalogue/index.html" "http" = false) by reflexivity.
  split; [exact H |].
  exact (proj1 (full_url_leading_slashes (init_collector "http://books.toscrape.com" 1)
                  "/catalogue/index.html" H)).
Defined.

(** When [base_url] starts with ["http"], every URL [get] builds starts
    with ["http"] too, so handing it back to [get] requests the same URL. *)
Theorem full_url_idempotent : forall c u,
  Py.startswith c.(base_url) "http" = true ->
  full_url c (full_url c u) = full_url c u.
Proof.
  intros c u Hb; destruct (Py.startswith u "http") eqn:Hu.
  - assert (E : full_url c u = u) by (unfold full_url; rewrite Hu; reflexivity).
    rewrite E; exact E.
  - assert (E : full_url c u = c.(base_url) ++ "/" ++ Py.lstrip_set ["/"%char] u)
      by (unfold full_url; rewrite Hu; reflexivity).
    rewrite E; unfold full_url at 1.
    assert (Hs : Py.startswith (c.(base_url) ++ "/" ++ Py.lstrip_set ["/"%char] u) "http" = true)
      by (apply prefix_app; exact Hb).
    rewrite Hs; reflexivity.
Qed.

(** Witness for [full_url_idempotent]. *)
Lemma full_url_idempotent_witness :
  let c := init_collector "http://books.toscrape.com" 1 in
  Py.startswith c.(base_url) "http" = true
  /\ full_url c (full_url c "catalogue/page-2.html") = full_url c "catalogue/page-2.html".
Proof.
  intros c.
  assert (H : Py.startswith c.(base_url) "http" = true) by reflexivity.
  split; [exact H | exact (full_url_idempotent c "catalogue/page-2.html" H)].
Defined.

(* ------------------------------------------------------------------ *)
(** ** [WebCollector._respect_rate_limit]: how long it sleeps *)

(** A fresh collector ([last_request_time = 0]) does not sleep before its
    first request once the clock reads at least [rate_limit]: the request
    is dispatched right away (after the clock's own jitter). *)
Theorem first_get_not_delayed : forall base rl u now tm resp,
  (rl <= now)%Z ->
  (get (init_collector base rl) u now tm resp).(dispatched) = (now + tm.(jitter))%Z.
Proof.
  intros base rl u now tm resp Hn.
  unfold get, _respect_rate_limit, init_collector; simpl.
  replace ((now - 0 <? rl)%Z) with false by (symmetry; apply Z.ltb_ge; lia).
  destruct resp as [e | s r x]; [| destruct (raises_for_status s)]; reflexivity.
Qed.

(** Witness for [first_get_not_delayed]: a real epoch clock. *)
Lemma first_get_not_delayed_witness :
  (1 <= 1700000000)%Z
  /\ (get (init_collector "http://books.toscrape.com" 1) "/" 1700000000
        (mkTiming 0 0 0) (HttpResponse 200 "OK" "home")).(dispatched) = 1700000000%Z.
Proof.
  assert (H : (1 <= 1700000000)%Z) by lia.
  split; [exact H |].
  exact (first_get_not_delayed "http://books.toscrape.com" 1 "/" 1700000000
           (mkTiming 0 0 0) (HttpResponse 200 "OK" "home") H).
Defined.

(** [get] never dispatches before it is called (plus the clock's jitter);
    it does not sleep when [rate_limit] has passed since
    [last_request_time]; and, when the clock has not gone back past
    [last_request_time], it never sleeps longer than [rate_limit]. *)
Theorem get_sleep_bounds : forall c u now tm resp,
  let d := (get c u now tm resp).(dispatched) in
  (now + tm.(jitter) <= d)%Z
  /\ ((c.(last_request_time) + c.(rate_limit) <= now)%Z -> d = (now + tm.(jitter))%Z)
  /\ ((c.(last_request_time) <= now)%Z ->
      (d <= now + tm.(jitter) + Z.max 0 c.(rate_limit))%Z).
Proof.
  intros [b rl last] u now tm resp d.
  assert (Hd : d = ((if (now - last <? rl)%Z then now + (rl - (now - last)) else now)
                    + jitter tm)%Z).
  { unfold d, get, _respect_rate_limit; simpl.
    destruct resp as [e | s r x]; [| destruct (raises_for_status s)]; reflexivity. }
  rewrite Hd; simpl.
  destruct (Z.ltb_spec (now - last) rl); repeat split; intros; lia.
Qed.

(* ------------------------------------------------------------------ *)
(** ** [BookParser._extract_price]: prices are never negative *)

Lemma digit_value_nonneg : forall c, (0 <= digit_value c)%Z.
Proof.
  intros c; unfold digit_value.
  destruct (digit_zero c) as [z |] eqn:E; [| lia].
  apply find_some in E as [_ E].
  apply andb_true_iff in E as [E _]; apply Z.leb_le in E; lia.
Qed.

Lemma digits_value_nonneg_from : forall d acc,
  (0 <= acc)%Z -> (0 <= fold_left (fun acc c => acc * 10 + digit_value c)%Z d acc)%Z.
Proof.
  induction d as [| c d IH]; intros acc Hacc; simpl; [exact Hacc |].
  apply IH; pose proof (digit_value_nonneg c); lia.
Qed.

Lemma normalize_nonneg : forall m e, (0 <= m)%Z -> float_nonneg (normalize m e).
Proof.
  intros m e Hm; unfold normalize.
  destruct m as [| p | p]; [simpl; lia | | lia].
  destruct (pos_odd_part p e) as [q e']; simpl; lia.
Qed.

Lemma round_half_even_nonneg : forall num den,
  (0 <= num)%Z -> (0 < den)%Z -> (0 <= round_half_even num den)%Z.
Proof.
  intros num den Hn Hd; unfold round_half_even.
  assert (Hq : (0 <= num / den)%Z) by (apply Z.div_pos; lia).
  destruct (den <? 2 * (num mod den))%Z; [lia |].
  destruct (2 * (num mod den) =? den)%Z; [destruct (Z.odd (num / den)) |]; lia.
Qed.

(** the double nearest to a non-negative ratio is not negative *)
Lemma float_of_ratio_nonneg : forall a b,
  (0 < b)%Z -> float_nonneg (float_of_ratio a b).
Proof.
  intros a b Hb; unfold float_of_ratio.
  destruct (Z.leb_spec a 0) as [Ha | Ha]; [simpl; lia |].
  cbv zeta.
  set (e := Z.max (floor_log2_q a b - 52) (-1074)).
  assert (Hm : (0 <= round_half_even (a * 2 ^ Z.max 0 (- e)) (b * 2 ^ Z.max 0 e))%Z).
  { apply round_half_even_nonneg.
    - apply Z.mul_nonneg_nonneg; [lia | apply Z.pow_nonneg; lia].
    - apply Z.mul_pos_pos; [lia | apply Z.pow_pos_nonneg; lia]. }
  destruct (2 ^ (1024 - e) <=? _)%Z; [exact I | apply normalize_nonneg; exact Hm].
Qed.

(** Every price [_extract_price] returns is [inf] or a double at least
    0.0: [float()] of a group of digits, or 0.0. *)
Theorem extract_price_nonneg : forall element, float_nonneg (_extract_price element).
Proof.
  intros element; unfold _extract_price.
  destruct (it_price element) as [text |]; [| simpl; lia].
  destruct (re_search (Py.strip_cp text)) as [[d1 d2] |]; [| simpl; lia].
  unfold float_of_group; apply float_of_ratio_nonneg.
  apply Z.pow_pos_nonneg; lia.
Qed.

(* ------------------------------------------------------------------ *)
(** ** Texts the parser strips *)

Open Scope string_scope.

Lemma str_app_assoc : forall a b c : string, (a ++ b) ++ c = a ++ (b ++ c).
Proof. induction a as [| x a IH]; intros b c; simpl; [reflexivity | rewrite IH; reflexivity]. Qed.

Lemma str_app_nil_r : forall a : string, a ++ "" = a.
Proof. induction a as [| x a IH]; simpl; [reflexivity | rewrite IH; reflexivity]. Qed.

Lemma rev_string_app : forall a b,
  Py.rev_string (a ++ b) = Py.rev_string b ++ Py.rev_string a.
Proof.
  induction a as [| x a IH]; intros b; simpl.
  - rewrite str_app_nil_r; reflexivity.
  - rewrite IH, str_app_assoc; reflexivity.
Qed.

Lemma rev_string_involutive : forall s, Py.rev_string (Py.rev_string s) = s.
Proof.
  induction s as [| x s IH]; simpl; [reflexivity |].
  rewrite rev_string_app, IH; reflexivity.
Qed.

Lemma lstrip_ws_head :
  forall s, match Py.lstrip_ws s with EmptyString => True | String c _ => Py.isspace c = false end.
Proof.
  induction s as [| x s IH]; simpl; [exact I |].
  destruct (Py.isspace x) eqn:E; [exact IH | exact E].
Qed.

Lemma lstrip_ws_suffix : forall s, exists p, s = p ++ Py.lstrip_ws s.
Proof.
  induction s as [| x s [p Hp]]; simpl; [exists ""; reflexivity |].
  destruct (Py.isspace x); [exists (String x p); simpl; rewrite <- Hp | exists ""]; reflexivity.
Qed.

(** [str.strip()] leaves no whitespace at either end. *)
Lemma strip_stripped : forall s, stripped (Py.strip s).
Proof.
  intros s; unfold stripped, Py.strip.
  set (x := Py.lstrip_ws s).
  set (z := Py.lstrip_ws (Py.rev_string x)).
  split.
  - destruct (lstrip_ws_suffix (Py.rev_string x)) as [p Hp]; fold z in Hp.
    assert (Hx : x = Py.rev_string z ++ Py.rev_string p).
    { rewrite <- (rev_string_involutive x), Hp, rev_string_app; reflexivity. }
    pose proof (lstrip_ws_head s) as Hh; fold x in Hh.
    destruct (Py.rev_string z) as [| c r]; [exact I |].
    rewrite Hx in Hh; exact Hh.
  - rewrite rev_string_involutive; apply lstrip_ws_head.
Qed.

(** The availability text of a listing item never has whitespace at either
    end: it is the stripped [p.availability] text, or ["Unknown"]. *)
Theorem extract_availability_stripped : forall element,
  stripped (_extract_availability element).
Proof.
  intros element; unfold _extract_availability.
  destruct (it_avail element) as [t |]; [apply strip_stripped | split; reflexivity].
Qed.

(** [parse_book_details] only ever sets the description and the UPC to
    stripped texts: a value it leaves in either field is the book's own or
    has no whitespace at either end. *)
Theorem parse_book_details_stripped : forall d b,
  (forall s, (parse_book_details d b).(description) = Some s ->
     b.(description) = Some s \/ stripped s)
  /\ (forall s, (parse_book_details d b).(upc) = Some s ->
     b.(upc) = Some s \/ stripped s).
Proof.
  intros d b.
  set (book1 := match doc_description d with
                | Some t => set_description b (Some (Py.strip t))
                | None => b end).
  assert (H1d : forall s, book1.(description) = Some s -> b.(description) = Some s \/ stripped s).
  { intros s Hs; unfold book1 in Hs; destruct (doc_description d) as [t |]; [| left; exact Hs].
    simpl in Hs; injection Hs as <-; right; apply strip_stripped. }
  assert (H1u : book1.(upc) = b.(upc))
    by (unfold book1; destruct (doc_description d); reflexivity).
  assert (Hfold : forall rows b0,
            (forall s, b0.(upc) = Some s -> b.(upc) = Some s \/ stripped s) ->
            forall s, (fold_left upc_row_step rows b0).(upc) = Some s ->
                      b.(upc) = Some s \/ stripped s).
  { induction rows as [| row rows IH]; intros b0 Hb0; simpl; [exact Hb0 |].
    apply IH; intros s Hs; unfold upc_row_step in Hs.
    destruct (row_th row) as [h |]; [| exact (Hb0 s Hs)].
    destruct (row_td row) as [t |]; [| exact (Hb0 s Hs)].
    destruct (String.eqb (Py.strip h) "UPC"); [| exact (Hb0 s Hs)].
    simpl in Hs; injection Hs as <-; right; apply strip_stripped. }
  unfold parse_book_details; fold book1.
  destruct (doc_info_table d) as [rows |]; split.
  - intros s; rewrite (proj2 (fold_upc_row_step_fields rows book1)); apply H1d.
  - apply Hfold; intros s Hs; left; rewrite <- H1u; exact Hs.
  - exact H1d.
  - intros s Hs; left; rewrite <- H1u; exact Hs.
Qed.

(* ------------------------------------------------------------------ *)
(** ** [BookParser.parse_categories] *)

(** the slashes [lstrip('/')] removes are a prefix of the text *)
Lemma lstrip_slash_split : forall u,
  exists n, u = slashes n ++ Py.lstrip_set ["/"%char] u.
Proof.
  induction u as [| a u [n IH]]; [exists O; reflexivity |].
  cbn [Py.lstrip_set existsb]; rewrite orb_false_r.
  destruct (Ascii.eqb_spec a "/") as [-> | _].
  - exists (S n); cbn [slashes append]; rewrite <- IH; reflexivity.
  - exists O; reflexivity.
Qed.

(** With a [.side_categories] element, [parse_categories] makes one
    category for each side-bar link with a non-empty [href], in order, and
    none for the others.  The category of a link has the link's stripped
    text as its name, no books, and the URL [base_url + '/' + p], where the
    [href] is [p] after some leading slashes and [p] does not start with a
    slash. *)
Theorem parse_categories_links : forall base d links,
  d.(doc_side_categories) = Some links ->
  Forall2 (fun l c =>
      c.(cat_name) = Py.strip l.(link_text) /\ stripped c.(cat_name) /\ c.(books) = []
      /\ exists n p, link_url l = slashes n ++ p /\ Py.startswith p "/" = false
                     /\ c.(cat_url) = base ++ "/" ++ p)
    (filter (fun l => Py.truthy (link_url l)) links)
    (parse_categories base d).
Proof.
  intros base d links Hd; unfold parse_categories; rewrite Hd; clear Hd.
  induction links as [| l ls IH]; [constructor |].
  cbn [flat_map filter]; unfold link_url at 2.
  destruct (Py.truthy _) eqn:Ht; cbn [app]; [| exact IH].
  constructor; [| exact IH].
  split; [reflexivity | split; [apply strip_stripped | split; [reflexivity |]]].
  destruct (lstrip_slash_split (link_url l)) as [n Hn].
  exists n, (Py.lstrip_set ["/"%char] (link_url l)).
  split; [exact Hn | split; [apply lstrip_slash_head | reflexivity]].
Qed.

(** Witness for [parse_categories_links]: the sample home page. *)
Lemma parse_categories_links_witness :
  home_doc.(doc_side_categories)
    = Some [mkLink " Poetry " (Some "catalogue/category/books/poetry_23/index.html")]
  /\ List.length (parse_categories sample_base home_doc) = 1%nat.
Proof.
  assert (H : home_doc.(doc_side_categories)
              = Some [mkLink " Poetry " (Some "catalogue/category/books/poetry_23/index.html")])
    by reflexivity.
  split; [exact H |].
  rewrite <- (Forall2_length (parse_categories_links sample_base home_doc _ H)).
  reflexivity.
Defined.

(* ------------------------------------------------------------------ *)
(** ** Following a next-page link *)

Lemma split_slash_nonempty : forall s, Py.split_slash s <> [].
Proof.
  induction s as [| c s IH]; simpl; [discriminate |].
  destruct (Py.split_slash s); [contradiction | destruct (Ascii.eqb c "/"); discriminate].
Qed.

Lemma split_slash_sep : forall pre last,
  Py.split_slash (pre ++ String "/" last) = (Py.split_slash pre ++ Py.split_slash last)%list.
Proof.
  induction pre as [| c pre IH]; intros last.
  - simpl; destruct (Py.split_slash last) eqn:E; [contradiction (split_slash_nonempty last E) |].
    reflexivity.
  - simpl; rewrite IH.
    destruct (Py.split_slash pre) as [| w ws] eqn:E; [contradiction (split_slash_nonempty pre E) |].
    simpl; destruct (Ascii.eqb c "/"); reflexivity.
Qed.

Lemma split_slash_no_slash : forall s,
  ~ In "/"%char (list_ascii_of_string s) -> Py.split_slash s = [s].
Proof.
  induction s as [| c s IH]; intros H; [reflexivity |].
  simpl in H; simpl; rewrite IH by tauto.
  destruct (Ascii.eqb_spec c "/") as [-> | _]; [tauto | reflexivity].
Qed.

Lemma join_split_slash : forall s, Py.join_slash (Py.split_slash s) = s.
Proof.
  induction s as [| c s IH]; [reflexivity |].
  cbn [Py.split_slash]; destruct (Py.split_slash s) as [| w ws] eqn:E;
    [contradiction (split_slash_nonempty s E) |].
  destruct (Ascii.eqb c "/") eqn:Ec.
  - apply Ascii.eqb_eq in Ec; subst c.
    change (Py.join_slash ("" :: w :: ws)) with ("" ++ "/" ++ Py.join_slash (w :: ws)).
    rewrite IH; reflexivity.
  - destruct ws as [| w' ws].
    + change (Py.join_slash [String c w]) with (String c w).
      change (Py.join_slash [w]) with w in IH; rewrite IH; reflexivity.
    + change (Py.join_slash (String c w :: w' :: ws))
        with (String c w ++ "/" ++ Py.join_slash (w' :: ws)).
      change (Py.join_slash (w :: w' :: ws)) with (w ++ "/" ++ Py.join_slash (w' :: ws)) in IH.
      rewrite <- IH; reflexivity.
Qed.

(** A relative next-page link replaces the last path segment of the
    current page's URL: ["pre/last"] and ["page-2.html"] give
    ["pre/page-2.html"] (this is the URL [page_loop] requests next, see
    [page_loop_page]). *)
Theorem resolve_next_last_segment : forall pre last next_page,
  ~ In "/"%char (list_ascii_of_string last) ->
  Py.startswith next_page "http" = false ->
  resolve_next (pre ++ "/" ++ last) next_page = pre ++ "/" ++ next_page.
Proof.
  intros pre last np Hl Hn; unfold resolve_next, current_dir; rewrite Hn.
  change ("/" ++ last) with (String "/" last).
  rewrite split_slash_sep, (split_slash_no_slash last Hl), removelast_last, join_split_slash.
  reflexivity.
Qed.

(** Witness for [resolve_next_last_segment]: the second page of a category. *)
Lemma resolve_next_last_segment_witness :
  ~ In "/"%char (list_ascii_of_string "index.html")
  /\ Py.startswith "page-2.html" "http" = false
  /\ resolve_next "http://books.toscrape.com/catalogue/category/books/poetry_23/index.html"
                  "page-2.html"
     = "http://books.toscrape.com/catalogue/category/books/poetry_23/page-2.html".
Proof.
  assert (H1 : ~ In "/"%char (list_ascii_of_string "index.html"))
    by (simpl; intros H; repeat (destruct H as [H | H]; [discriminate H |]); exact H).
  assert (H2 : Py.startswith "page-2.html" "http" = false) by reflexivity.
  split; [exact H1 | split; [exact H2 |]].
  exact (resolve_next_last_segment "http://books.toscrape.com/catalogue/category/books/poetry_23"
           "index.html" "page-2.html" H1 H2).
Defined.

(* ------------------------------------------------------------------ *)
(** ** What [scrape_all_books] returns *)

Section FurtherOrchestrator.
Variables (site : string) (soup : string -> Document) (web : string -> option string).

(** the [get] of a category's first page fails or returns an empty body *)
Definition page_fails (c : Category) : Prop :=
  truthy_opt (web (full_url (the_collector site) c.(cat_url))) = false.

Definition cat_key (c : Category) : string * string := (c.(cat_name), c.(cat_url)).

Lemma scrape_categories_keys : forall fuel cap cs,
  Forall (fun c => c.(books) = []) cs ->
  map cat_key (fst (scrape_categories site soup web fuel cap cs)) = map cat_key cs
  /\ Forall (fun c => page_fails c -> c.(books) = [])
            (fst (scrape_categories site soup web fuel cap cs)).
Proof.
  induction cs as [| c cs IH]; intros Hcs; [split; [reflexivity | constructor] |].
  inversion Hcs as [| ? ? Hc Hcs']; subst.
  destruct (IH Hcs') as [IHk IHf]; clear IH.
  cbn [scrape_categories]; unfold scrape_category.
  destruct (scrape_categories site soup web fuel cap cs) as [cs' tr] eqn:E; simpl in IHk, IHf.
  destruct (fetch site web (cat_url c)) as [h ev] eqn:Efetch.
  unfold fetch in Efetch; injection Efetch as Eh _.
  destruct (truthy_opt h) eqn:Ef; cbn [negb].
  2:{ simpl; split; [rewrite IHk; reflexivity | constructor; [intros _; exact Hc | exact IHf]]. }
  destruct (page_loop site soup web fuel cap _ _ h 0 (books c) ev) as [bs tr2].
  simpl; split; [rewrite IHk; reflexivity |].
  constructor; [| exact IHf].
  unfold page_fails; simpl; rewrite Eh; intros Hfail; rewrite Hfail in Ef; discriminate.
Qed.

(** [scrape_all_books] returns no category when the home page cannot be
    fetched; otherwise exactly the categories [parse_categories] finds on
    the home page, in the same order and with the same names and URLs, a
    category whose first page cannot be fetched being kept with no books. *)
Theorem scrape_all_books_categories : forall fuel cap,
  let home := web (full_url (the_collector site) "/") in
  let res := fst (scrape_all_books site soup web fuel cap) in
  (truthy_opt home = false -> res = [])
  /\ (truthy_opt home = true ->
      map cat_key res = map cat_key (parse_categories site (soup (body home))))
  /\ Forall (fun c => page_fails c -> c.(books) = []) res.
Proof.
  intros fuel cap home res.
  pose proof (scrape_categories_keys fuel cap (parse_categories site (soup (body home)))
                (parse_categories_empty site (soup (body home)))) as [Hk Hf].
  unfold res, scrape_all_books.
  destruct (fetch site web "/") as [h ev] eqn:Efetch.
  assert (Hh : h = home) by (unfold fetch in Efetch; injection Efetch as Eh _; exact (eq_sym Eh)).
  subst h.
  destruct (truthy_opt home) eqn:Eh; simpl.
  - destruct (scrape_categories site soup web fuel cap _) as [cs' tr]; simpl in *.
    split; [discriminate | split; [intros _; exact Hk | exact Hf]].
  - split; [reflexivity | split; [discriminate | constructor]].
Qed.

(** the detail step keeps a book's summary fields *)
Lemma enrich_summary : forall b, summary (enrich site soup web b) = summary b.
Proof.
  intros b; unfold enrich.
  destruct (truthy_opt _); [apply parse_book_details_summary | reflexivity].
Qed.

Lemma page_loop_category : forall fuel cap name cur html count acc tr,
  Forall (fun b => b.(category) = name) acc ->
  Forall (fun b => b.(category) = name)
         (fst (page_loop site soup web fuel cap name cur html count acc tr)).
Proof.
  induction fuel as [| fuel IH]; intros cap name cur html count acc tr Hacc; [exact Hacc |].
  destruct (truthy_opt html && below_cap cap count) eqn:E;
    [| rewrite page_loop_stop by exact E; exact Hacc].
  apply andb_true_iff in E as [Eh Ec].
  rewrite page_loop_page by assumption; cbv zeta.
  set (bs := parse_books_list site (soup (body html)) name).
  set (k := retained cap count (List.length bs)).
  assert (Hacc' : Forall (fun b => b.(category) = name)
                    (acc ++ map (enrich site soup web) (firstn k bs))).
  { apply Forall_app; split; [exact Hacc |].
    apply Forall_forall; intros b Hb.
    apply in_map_iff in Hb as [b0 [<- Hb0]].
    assert (Hin : In b0 bs)
      by (rewrite <- (firstn_skipn k bs); apply in_or_app; left; exact Hb0).
    unfold bs, parse_books_list in Hin; apply in_map_iff in Hin as [e [<- _]].
    pose proof (enrich_summary (book_of_element site name e)) as Hs.
    unfold summary in Hs; injection Hs as _ _ _ _ Hc _ _; rewrite Hc; reflexivity. }
  destruct (check_next_page (soup (body html))) as [np |]; [| exact Hacc'].
  match goal with |- context [if below_cap ?c ?n then _ else _] => destruct (below_cap c n) end;
    [apply IH; exact Hacc' | exact Hacc'].
Qed.

(** Every book [scrape_all_books] puts in a category carries that
    category's name in its [category] field. *)
Theorem scrape_all_books_category_field : forall fuel cap,
  Forall (fun c => Forall (fun b => b.(category) = c.(cat_name)) c.(books))
         (fst (scrape_all_books site soup web fuel cap)).
Proof.
  intros fuel cap; unfold scrape_all_books.
  destruct (fetch site web "/") as [h ev].
  destruct (negb (truthy_opt h)); [constructor |].
  pose proof (parse_categories_empty site (soup (body h))) as Hempty.
  destruct (scrape_categories site soup web fuel cap _) as [cs' tr] eqn:E; simpl.
  revert cs' tr E.
  induction (parse_categories site (soup (body h))) as [| c cs IH]; intros cs' tr E;
    simpl in E; [injection E as <- _; constructor |].
  inversion Hempty as [| ? ? Hc Hcs]; subst.
  unfold scrape_category in E.
  destruct (scrape_categories site soup web fuel cap cs) as [cs1 tr1] eqn:E1.
  specialize (IH Hcs cs1 tr1 eq_refl).
  destruct (fetch site web (cat_url c)) as [h' ev'].
  destruct (negb (truthy_opt h')).
  - injection E as <- _; constructor; [rewrite Hc; constructor | exact IH].
  - pose proof (page_loop_category fuel cap (cat_name c) (cat_url c) h' 0 (books c) ev')
      as Hl.
    destruct (page_loop site soup web fuel cap _ _ h' 0 (books c) ev') as [bs tr2].
    injection E as <- _; constructor; [| exact IH].
    simpl in *; apply Hl; rewrite Hc; constructor.
Qed.

End FurtherOrchestrator.

(* ------------------------------------------------------------------ *)
(** ** [FileHandler.save_to_csv] *)

Lemma read_write_same : forall fs p c, read_file (write_file fs p c) p = Some c.
Proof. intros fs p c; simpl; rewrite String.eqb_refl; reflexivity. Qed.

Lemma read_write_other : forall fs p q c,
  q <> p -> read_file (write_file fs p c) q = read_file fs q.
Proof.
  intros fs p q c Hne; simpl.
  destruct (String.eqb_spec q p); [contradiction | reflexivity].
Qed.

(** a row whose keys are all among [fieldnames] *)
Definition keys_within (fieldnames : list string) (rowdict : Dict) : Prop :=
  Forall (fun kv => In (fst kv) fieldnames) rowdict.

(** the cells [csv.DictWriter] writes for a row in range: [''] for a
    missing key *)
Definition csv_row (fieldnames : list string) (rowdict : Dict) : list Value :=
  map (fun k => dict_get rowdict k (VStr "")) fieldnames.

Lemma dict_to_list_within : forall fns r,
  keys_within fns r -> dict_to_list fns r = Some (csv_row fns r).
Proof.
  intros fns r H; unfold dict_to_list.
  destruct (existsb _ r) eqn:E; [| reflexivity].
  apply existsb_exists in E as [kv [Hin Hkv]].
  apply negb_true_iff in Hkv.
  unfold keys_within in H; rewrite Forall_forall in H; specialize (H kv Hin).
  assert (Ht : existsb (String.eqb (fst kv)) fns = true)
    by (apply existsb_exists; exists (fst kv); split; [exact H | apply String.eqb_refl]).
  congruence.
Qed.

Lemma dict_to_list_outside : forall fns r k v,
  In (k, v) r -> ~ In k fns -> dict_to_list fns r = None.
Proof.
  intros fns r k v Hin Hk; unfold dict_to_list.
  replace (existsb _ r) with true; [reflexivity |].
  symmetry; apply existsb_exists; exists (k, v); split; [exact Hin |].
  apply negb_true_iff; simpl.
  destruct (existsb (String.eqb k) fns) eqn:E; [| reflexivity].
  apply existsb_exists in E as [k' [Hk' Heq]]; apply String.eqb_eq in Heq; subst k'.
  contradiction.
Qed.

Lemma write_rows_within : forall fns data,
  Forall (keys_within fns) data -> write_rows fns data = (map (csv_row fns) data, true).
Proof.
  induction data as [| r data IH]; intros H; [reflexivity |].
  inversion H as [| ? ? Hr Hdata]; subst; simpl.
  rewrite (dict_to_list_within fns r Hr), (IH Hdata); reflexivity.
Qed.

Lemma write_rows_outside : forall fns good bad rest k v,
  Forall (keys_within fns) good -> In (k, v) bad -> ~ In k fns ->
  write_rows fns (good ++ bad :: rest) = (map (csv_row fns) good, false).
Proof.
  induction good as [| r good IH]; intros bad rest k v Hg Hin Hk; simpl.
  - rewrite (dict_to_list_outside fns bad k v Hin Hk); reflexivity.
  - inversion Hg as [| ? ? Hr Hg']; subst.
    rewrite (dict_to_list_within fns r Hr), (IH bad rest k v Hg' Hin Hk); reflexivity.
Qed.

(** When every row's keys are among the first row's keys, [save_to_csv]
    returns [True] and the file holds the first row's keys as its header
    and one line per row, in order, with [''] for a key a row lacks. *)
Theorem save_to_csv_writes_all : forall data_dir can_open data filename fs first rest,
  data = first :: rest ->
  can_open (PyPath.join data_dir filename) = true ->
  Forall (keys_within (map fst first)) data ->
  snd (save_to_csv data_dir can_open data filename fs) = true
  /\ read_file (fst (save_to_csv data_dir can_open data filename fs))
               (PyPath.join data_dir filename)
     = Some (CsvText (map fst first) (map (csv_row (map fst first)) data)).
Proof.
  intros data_dir can_open data filename fs first rest -> Hopen Hk.
  unfold save_to_csv; rewrite Hopen, (write_rows_within _ _ Hk).
  split; [reflexivity | apply read_write_same].
Qed.

(** Witness for [save_to_csv_writes_all]: the second row lacks ["price"]. *)
Lemma save_to_csv_writes_all_witness :
  let first := [("title", VStr "A"); ("price", VFloat (PFinite 1 0))] in
  let data := [first; [("title", VStr "B")]] in
  data = first :: [[("title", VStr "B")]]
  /\ (fun _ : string => true) (PyPath.join "../data" "books.csv") = true
  /\ Forall (keys_within (map fst first)) data
  /\ read_file (fst (save_to_csv "../data" (fun _ => true) data "books.csv" []))
               "../data/books.csv"
     = Some (CsvText ["title"; "price"] [[VStr "A"; VFloat (PFinite 1 0)]; [VStr "B"; VStr ""]]).
Proof.
  intros first data.
  assert (H1 : data = first :: [[("title", VStr "B")]]) by reflexivity.
  assert (H2 : (fun _ : string => true) (PyPath.join "../data" "books.csv") = true)
    by reflexivity.
  assert (H3 : Forall (keys_within (map fst first)) data)
    by (repeat constructor; simpl; tauto).
  split; [exact H1 | split; [exact H2 | split; [exact H3 |]]].
  exact (proj2 (save_to_csv_writes_all "../data" (fun _ => true) data "books.csv" []
                  first _ H1 H2 H3)).
Defined.

(** A row with a key outside the first row's keys makes [csv.DictWriter]
    raise: [save_to_csv] returns [False], and the file it leaves holds the
    header and the rows before that one. *)
Theorem save_to_csv_extra_key : forall data_dir can_open data filename fs first rest
    good bad after k v,
  data = first :: rest ->
  data = (good ++ bad :: after)%list ->
  can_open (PyPath.join data_dir filename) = true ->
  Forall (keys_within (map fst first)) good ->
  In (k, v) bad -> ~ In k (map fst first) ->
  snd (save_to_csv data_dir can_open data filename fs) = false
  /\ read_file (fst (save_to_csv data_dir can_open data filename fs))
               (PyPath.join data_dir filename)
     = Some (CsvText (map fst first) (map (csv_row (map fst first)) good)).
Proof.
  intros data_dir can_open data filename fs first rest good bad after k v
    Hd Hsplit Hopen Hg Hin Hk.
  unfold save_to_csv; rewrite Hd; cbv iota beta; rewrite Hopen, <- Hd, Hsplit.
  pose proof (write_rows_outside (map fst first) good bad after k v Hg Hin Hk) as W.
  unfold Dict in W; rewrite W.
  split; [reflexivity | apply read_write_same].
Qed.

(** Witness for [save_to_csv_extra_key]: the second row has a ["price"]
    the first lacks. *)
Lemma save_to_csv_extra_key_witness :
  let first := [("title", VStr "A")] in
  let bad := [("title", VStr "B"); ("price", VFloat (PFinite 1 0))] in
  let data := [first; bad] in
  snd (save_to_csv "../data" (fun _ => true) data "books.csv" []) = false
  /\ read_file (fst (save_to_csv "../data" (fun _ => true) data "books.csv" []))
               "../data/books.csv"
     = Some (CsvText ["title"] [[VStr "A"]]).
Proof.
  intros first bad data.
  assert (Hg : Forall (keys_within (map fst first)) [first])
    by (repeat constructor; simpl; tauto).
  assert (Hin : In ("price", VFloat (PFinite 1 0)) bad) by (simpl; tauto).
  assert (Hk : ~ In "price" (map fst first))
    by (simpl; intros [H | H]; [discriminate H | exact H]).
  exact (save_to_csv_extra_key "../data" (fun _ => true) data "books.csv" [] first [bad]
           [first] bad [] "price" (VFloat (PFinite 1 0)) eq_refl eq_refl eq_refl Hg Hin Hk).
Defined.

(* ------------------------------------------------------------------ *)
(** ** [save_data]: the files of a run *)

Lemma str_app_inv_l : forall a b1 b2 : string, a ++ b1 = a ++ b2 -> b1 = b2.
Proof. induction a as [| x a IH]; intros b1 b2 H; [exact H | injection H as H; exact (IH _ _ H)]. Qed.

(** two file names that do not start with ['/'] name two files *)
Lemma join_injective : forall dir f1 f2,
  Py.startswith f1 "/" = false -> Py.startswith f2 "/" = false ->
  PyPath.join dir f1 = PyPath.join dir f2 -> f1 = f2.
Proof.
  intros dir f1 f2 H1 H2; unfold PyPath.join; rewrite H1, H2.
  destruct (negb (Py.truthy dir) || PyPath.endswith dir "/").
  - apply str_app_inv_l.
  - intros H; apply str_app_inv_l in H; injection H as H; exact H.
Qed.

Lemma csv_ne_json : forall dir, PyPath.join dir "books.csv" <> PyPath.join dir "books.json".
Proof. intros dir H; apply join_injective in H; [discriminate H | reflexivity | reflexivity]. Qed.

Lemma csv_ne_categories : forall dir,
  PyPath.join dir "books.csv" <> PyPath.join dir "categories.json".
Proof. intros dir H; apply join_injective in H; [discriminate H | reflexivity | reflexivity]. Qed.

Lemma json_ne_categories : forall dir,
  PyPath.join dir "books.json" <> PyPath.join dir "categories.json".
Proof. intros dir H; apply join_injective in H; [discriminate H | reflexivity | reflexivity]. Qed.

Lemma all_books_dicts : forall cats,
  flat_map (fun c => map book_to_dict c.(books)) cats
  = map book_to_dict (flat_map books cats).
Proof.
  induction cats as [| c cats IH]; [reflexivity |].
  simpl; rewrite IH, map_app; reflexivity.
Qed.

Lemma book_to_dict_keys : forall b, map fst (book_to_dict b) = book_fields.
Proof. reflexivity. Qed.

Lemma book_to_dict_within : forall b, keys_within book_fields (book_to_dict b).
Proof.
  intros b; unfold keys_within, book_to_dict, book_fields.
  repeat apply Forall_cons; [simpl; tauto .. | apply Forall_nil].
Qed.

Lemma csv_row_book : forall b, csv_row book_fields (book_to_dict b) = book_row b.
Proof. reflexivity. Qed.

Lemma flat_map_books_nonempty : forall cats,
  (exists c, In c cats /\ c.(books) <> []) -> flat_map books cats <> [].
Proof.
  intros cats [c [Hin Hb]] H.
  destruct (books c) as [| b bs] eqn:E; [contradiction |].
  assert (Hb' : In b (flat_map books cats))
    by (apply in_flat_map; exists c; split; [exact Hin | rewrite E; left; reflexivity]).
  rewrite H in Hb'; exact Hb'.
Qed.

(** [books.csv] after the two book files are written *)
Lemma books_csv_after_json : forall data_dir can_open b bs fs,
  can_open (PyPath.join data_dir "books.csv") = true ->
  read_file
    (fst (save_to_json data_dir can_open (book_to_dict b :: map book_to_dict bs) "books.json"
            (fst (save_to_csv data_dir can_open (book_to_dict b :: map book_to_dict bs)
                    "books.csv" fs))))
    (PyPath.join data_dir "books.csv")
  = Some (CsvText book_fields (map book_row (b :: bs))).
Proof.
  intros data_dir can_open b bs fs Hopen.
  unfold save_to_json; destruct (can_open (PyPath.join data_dir "books.json")); cbn [fst];
    [rewrite read_write_other by apply csv_ne_json |].
  all: unfold save_to_csv; rewrite Hopen, book_to_dict_keys.
  all: rewrite write_rows_within
         by (constructor; [apply book_to_dict_within |];
             apply Forall_forall; intros r Hr; apply in_map_iff in Hr as [b' [<- _]];
             apply book_to_dict_within).
  all: cbn [fst]; rewrite read_write_same; cbn [map]; rewrite csv_row_book, map_map.
  all: do 3 f_equal; apply map_ext; intros b'; apply csv_row_book.
Qed.

(** [books.csv] after [save_data] *)
Lemma read_books_csv_save_data : forall data_dir can_open cats fs,
  (exists c, In c cats /\ c.(books) <> []) ->
  can_open (PyPath.join data_dir "books.csv") = true ->
  read_file (save_data data_dir can_open cats fs) (PyPath.join data_dir "books.csv")
  = Some (CsvText book_fields (map book_row (flat_map books cats))).
Proof.
  intros data_dir can_open cats fs Hc Hopen.
  pose proof (flat_map_books_nonempty cats Hc) as Hne.
  unfold save_data; cbv zeta; rewrite all_books_dicts.
  destruct (flat_map books cats) as [| b bs]; [contradiction |].
  cbn [map].
  destruct (map category_to_dict cats) as [| cd cds].
  - apply books_csv_after_json; exact Hopen.
  - unfold save_to_json at 1.
    destruct (can_open (PyPath.join data_dir "categories.json")); cbn [fst];
      [rewrite read_write_other by apply csv_ne_categories |];
      apply books_csv_after_json; exact Hopen.
Qed.

(** When some category has a book and [books.csv] can be opened,
    [save_data] leaves in [books.csv] the fixed header of the nine [Book]
    fields and one row per book, category after category in order, each
    row the book's fields in [to_dict] order. *)
Theorem save_data_books_csv : forall data_dir can_open cats fs,
  (exists c, In c cats /\ c.(books) <> []) ->
  can_open (PyPath.join data_dir "books.csv") = true ->
  read_file (save_data data_dir can_open cats fs) (PyPath.join data_dir "books.csv")
  = Some (CsvText book_fields (map book_row (flat_map books cats))).
Proof. exact read_books_csv_save_data. Qed.

(** Witness for [save_data_books_csv]: the sample run's one category. *)
Lemma save_data_books_csv_witness :
  let cats := fst (scrape_all_books sample_base sample_soup sample_web 10 None) in
  (exists c, In c cats /\ c.(books) <> [])
  /\ (fun _ : string => true) (PyPath.join "../data" "books.csv") = true
  /\ read_file (save_data "../data" (fun _ => true) cats []) "../data/books.csv"
     = Some (CsvText book_fields (map book_row (flat_map books cats))).
Proof.
  intros cats.
  assert (H1 : exists c, In c cats /\ c.(books) <> []).
  { exists (hd (mkCategory "" "" []) cats); split; vm_compute; [left; reflexivity | discriminate]. }
  assert (H2 : (fun _ : string => true) (PyPath.join "../data" "books.csv") = true)
    by reflexivity.
  split; [exact H1 | split; [exact H2 |]].
  exact (save_data_books_csv "../data" (fun _ => true) cats [] H1 H2).
Defined.

(** When no category has a book, [save_data] writes neither [books.csv] nor
    [books.json]: the only file it may write is [categories.json], and with
    no category at all it writes nothing. *)
Theorem save_data_without_books : forall data_dir can_open cats fs,
  Forall (fun c => c.(books) = []) cats ->
  (forall p, p <> PyPath.join data_dir "categories.json" ->
     read_file (save_data data_dir can_open cats fs) p = read_file fs p)
  /\ (cats = [] -> save_data data_dir can_open cats fs = fs).
Proof.
  intros data_dir can_open cats fs Hb.
  assert (E : flat_map (fun c => map book_to_dict c.(books)) cats = []).
  { induction Hb as [| c cs Hc _ IH]; [reflexivity | simpl; rewrite Hc, IH; reflexivity]. }
  unfold save_data; cbv zeta; rewrite E; split.
  - intros p Hp; destruct (map category_to_dict cats) as [| cd cds]; [reflexivity |].
    unfold save_to_json; destruct (can_open _); cbn [fst]; [| reflexivity].
    apply read_write_other; exact Hp.
  - intros ->; reflexivity.
Qed.

Lemma count_of_category : forall c, count_of (VDict (category_to_dict c)) = book_count c.
Proof. reflexivity. Qed.

Lemma sum_book_counts : forall cats,
  fold_right Z.add 0%Z (map book_count cats) = Z.of_nat (List.length (flat_map books cats)).
Proof.
  induction cats as [| c cats IH]; [reflexivity |].
  simpl; rewrite IH, length_app, Nat2Z.inj_add; reflexivity.
Qed.

(** When some category has a book and both files can be opened, the
    [book_count] entries [save_data] writes to [categories.json] (one
    dictionary per category, in order) add up to the number of rows of
    [books.csv]. *)
Theorem save_data_counts_agree : forall data_dir can_open cats fs,
  (exists c, In c cats /\ c.(books) <> []) ->
  can_open (PyPath.join data_dir "books.csv") = true ->
  can_open (PyPath.join data_dir "categories.json") = true ->
  exists rows ds,
    read_file (save_data data_dir can_open cats fs) (PyPath.join data_dir "books.csv")
      = Some (CsvText book_fields rows)
    /\ read_file (save_data data_dir can_open cats fs) (PyPath.join data_dir "categories.json")
      = Some (JsonText (VList ds))
    /\ ds = map (fun c => VDict (category_to_dict c)) cats
    /\ Z.of_nat (List.length rows) = fold_right Z.add 0%Z (map count_of ds).
Proof.
  intros data_dir can_open cats fs Hc Hcsv Hcat.
  exists (map book_row (flat_map books cats)), (map (fun c => VDict (category_to_dict c)) cats).
  split; [exact (read_books_csv_save_data data_dir can_open cats fs Hc Hcsv) |].
  split; [| split; [reflexivity |]].
  - unfold save_data; cbv zeta.
    destruct (map category_to_dict cats) as [| cd cds] eqn:Ecat.
    + destruct Hc as [c [Hin _]]; apply (in_map category_to_dict) in Hin.
      rewrite Ecat in Hin; contradiction.
    + unfold save_to_json at 1; rewrite Hcat; cbn [fst].
      rewrite read_write_same, <- Ecat, map_map; reflexivity.
  - rewrite length_map, map_map.
    rewrite (map_ext _ _ count_of_category), sum_book_counts; reflexivity.
Qed.

(** Witness for [save_data_counts_agree]: the sample run. *)
Lemma save_data_counts_agree_witness :
  let cats := fst (scrape_all_books sample_base sample_soup sample_web 10 None) in
  (exists c, In c cats /\ c.(books) <> [])
  /\ (fun _ : string => true) (PyPath.join "../data" "books.csv") = true
  /\ (fun _ : string => true) (PyPath.join "../data" "categories.json") = true
  /\ exists rows ds,
    read_file (save_data "../data" (fun _ => true) cats []) "../data/books.csv"
      = Some (CsvText book_fields rows)
    /\ read_file (save_data "../data" (fun _ => true) cats []) "../data/categories.json"
      = Some (JsonText (VList ds))
    /\ ds = map (fun c => VDict (category_to_dict c)) cats
    /\ Z.of_nat (List.length rows) = fold_right Z.add 0%Z (map count_of ds).
Proof.
  intros cats.
  assert (H1 : exists c, In c cats /\ c.(books) <> []).
  { exists (hd (mkCategory "" "" []) cats); split; vm_compute; [left; reflexivity | discriminate]. }
  assert (H2 : (fun _ : string => true) (PyPath.join "../data" "books.csv") = true)
    by reflexivity.
  assert (H3 : (fun _ : string => true) (PyPath.join "../data" "categories.json") = true)
    by reflexivity.
  split; [exact H1 | split; [exact H2 | split; [exact H3 |]]].
  exact (save_data_counts_agree "../data" (fun _ => true) cats [] H1 H2 H3).
Defined.

(** Witness for [save_data_without_books]: one category without books. *)
Lemma save_data_without_books_witness :
  let cats := [mkCategory "Poetry" "http://books.toscrape.com/catalogue/category/books/poetry_23/index.html" []] in
  Forall (fun c => c.(books) = []) cats
  /\ "../data/books.csv" <> PyPath.join "../data" "categories.json"
  /\ read_file (save_data "../data" (fun _ => true) cats []) "../data/books.csv" = None.
Proof.
  intros cats.
  assert (H1 : Forall (fun c => c.(books) = []) cats) by (repeat constructor).
  assert (H2 : "../data/books.csv" <> PyPath.join "../data" "categories.json")
    by (vm_compute; discriminate).
  split; [exact H1 | split; [exact H2 |]].
  exact (proj1 (save_data_without_books "../data" (fun _ => true) cats [] H1)
           "../data/books.csv" H2).
Defined.

(** When some category has a book and [books.json] can be opened,
    [save_data] leaves in [books.json] the [to_dict] of every book, category
    after category in order, whether or not [books.csv] could be written. *)
Theorem save_data_books_json : forall data_dir can_open cats fs,
  (exists c, In c cats /\ c.(books) <> []) ->
  can_open (PyPath.join data_dir "books.json") = true ->
  read_file (save_data data_dir can_open cats fs) (PyPath.join data_dir "books.json")
  = Some (JsonText (VList (map (fun b => VDict (book_to_dict b)) (flat_map books cats)))).
Proof.
  intros data_dir can_open cats fs Hc Hopen.
  pose proof (flat_map_books_nonempty cats Hc) as Hne.
  unfold save_data; cbv zeta; rewrite all_books_dicts.
  destruct (flat_map books cats) as [| b bs]; [contradiction |].
  cbn [map].
  assert (E : read_file
                (fst (save_to_json data_dir can_open
                        (book_to_dict b :: map book_to_dict bs) "books.json"
                        (fst (save_to_csv data_dir can_open
                                (book_to_dict b :: map book_to_dict bs) "books.csv" fs))))
                (PyPath.join data_dir "books.json")
              = Some (JsonText (VList (VDict (book_to_dict b)
                                       :: map (fun b => VDict (book_to_dict b)) bs)))).
  { unfold save_to_json at 1; rewrite Hopen; cbn [fst]; rewrite read_write_same.
    cbn [map]; rewrite map_map; reflexivity. }
  destruct (map category_to_dict cats) as [| cd cds]; [exact E |].
  unfold save_to_json at 1.
  destruct (can_open (PyPath.join data_dir "categories.json")); cbn [fst];
    [rewrite read_write_other by apply json_ne_categories |]; exact E.
Qed.

(** Witness for [save_data_books_json]: [books.csv] cannot be opened, and
    [books.json] is still written. *)
Lemma save_data_books_json_witness :
  let cats := fst (scrape_all_books sample_base sample_soup sample_web 10 None) in
  let can_open := fun p => negb (String.eqb p "../data/books.csv") in
  (exists c, In c cats /\ c.(books) <> [])
  /\ can_open (PyPath.join "../data" "books.json") = true
  /\ read_file (save_data "../data" can_open cats []) "../data/books.csv" = None
  /\ read_file (save_data "../data" can_open cats []) "../data/books.json"
     = Some (JsonText (VList (map (fun b => VDict (book_to_dict b)) (flat_map books cats)))).
Proof.
  intros cats can_open.
  assert (H1 : exists c, In c cats /\ c.(books) <> []).
  { exists (hd (mkCategory "" "" []) cats); split; vm_compute; [left; reflexivity | discriminate]. }
  assert (H2 : can_open (PyPath.join "../data" "books.json") = true) by reflexivity.
  split; [exact H1 | split; [exact H2 | split; [vm_compute; reflexivity |]]].
  exact (save_data_books_json "../data" can_open cats [] H1 H2).
Defined.

(* ------------------------------------------------------------------ *)
(** ** [BookParser.parse_books_list]: the summaries it builds *)

(** With a [base_url] starting with ["http"], [parse_books_list] makes one
    book per [article.product_pod], each filed under the given category,
    with no UPC and no description yet, and an [image_url] that is empty or
    absolute (starts with ["http"]). *)
Theorem parse_books_list_summaries : forall base d name,
  Py.startswith base "http" = true ->
  List.length (parse_books_list base d name) = List.length d.(doc_product_pods)
  /\ Forall (fun b => b.(category) = name /\ b.(upc) = None /\ b.(description) = None
                      /\ (b.(image_url) = "" \/ Py.startswith b.(image_url) "http" = true))
            (parse_books_list base d name).
Proof.
  intros base d name Hb; unfold parse_books_list; split; [apply length_map |].
  apply Forall_forall; intros b Hin; apply in_map_iff in Hin as [e [<- _]].
  unfold book_of_element; cbn [category upc description image_url].
  split; [reflexivity | split; [reflexivity | split; [reflexivity |]]].
  destruct (match it_img e with Some (Some s) => s | _ => "" end) as [| a s] eqn:Ei.
  - left; reflexivity.
  - destruct (Py.startswith (String a s) "http") eqn:Es; cbn [Py.truthy negb andb].
    + right; exact Es.
    + right; apply prefix_app; exact Hb.
Qed.

(** Witness for [parse_books_list_summaries]: a listing item with a
    relative image path and one without an image. *)
Lemma parse_books_list_summaries_witness :
  let d := mkDocument None
             [mkItem (Some (mkAnchor (Some "A Light in the Attic")
                              (Some "../../../a-light-in-the-attic_1000/index.html")))
                     (Some (Some "../media/cache/2c/da/fe.jpg")) None None None;
              mkItem None None None None None] None None None in
  Py.startswith sample_base "http" = true
  /\ Forall (fun b => b.(image_url) = "" \/ Py.startswith b.(image_url) "http" = true)
            (parse_books_list sample_base d "Poetry")
  /\ map image_url (parse_books_list sample_base d "Poetry")
     = ["http://books.toscrape.com/../media/cache/2c/da/fe.jpg"; ""].
Proof.
  intros d.
  assert (H : Py.startswith sample_base "http" = true) by reflexivity.
  split; [exact H | split; [| vm_compute; reflexivity]].
  exact (Forall_impl _ (fun b Hb => proj2 (proj2 (proj2 Hb)))
           (proj2 (parse_books_list_summaries sample_base d "Poetry" H))).
Defined.
